(** * go-cmd-evt: command router and event pipeline

    A shallow embedding of the routing core of [github.com/leviplj/go-cmd-evt]:

    - the router of package [gocmdevt]: [Command], [HandlerFunc], [Module],
      [App], [NewApp], [App.Handle];
    - the events of package [gocmdevt]: [BaseEvent], [NewBaseEvent],
      [generateEventID], [EventLogWriter], [Dispatcher], [EventEmitter],
      [Emit];
    - the two [InMemoryDispatcher]s shipped with the repository
      ([matmaster/main.go] and [example_test.go]).

    Go maps keyed by [reflect.Type] are [gmap]s, slices of subscribers are
    lists, and every function that touches the outside world (handlers, the
    log writer, the clock, the randomness source, the process logger) is a
    state transformer over an abstract [World].  Function values are modelled
    by what they do when they return; a handler that panics or never returns
    is outside this model. *)

From Stdlib Require Import Strings.Ascii Strings.String Strings.Byte.
From Stdlib Require Import DecimalString.
From stdpp Require Import gmap strings list fin_maps.

Set Default Proof Using "Type".

(** ** Runtime types ([reflect.Type]) *)

(** The fragment of Go's types the router meets: predeclared types, defined
    (named) types of a package, and pointers to them. *)
Inductive rtype : Type :=
  | TBasic (name : string)
  | TNamed (pkg name : string)
  | TPtr (elem : rtype).

(** [reflect.Type.String], which is also what the verb [%T] prints. *)
Fixpoint rtype_String (t : rtype) : string :=
  match t with
  | TBasic name => name
  | TNamed pkg name => pkg +:+ "." +:+ name
  | TPtr elem => "*" +:+ rtype_String elem
  end.

#[global] Instance rtype_eq_dec : EqDecision rtype.
Proof. solve_decision. Defined.

Fixpoint rtype_enc (t : rtype) : nat * (string + string * string) :=
  match t with
  | TBasic name => (0, inl name)
  | TNamed pkg name => (0, inr (pkg, name))
  | TPtr elem => let '(n, b) := rtype_enc elem in (S n, b)
  end.

Fixpoint rtype_wrap (n : nat) (t : rtype) : rtype :=
  match n with
  | 0 => t
  | S n => TPtr (rtype_wrap n t)
  end.

Definition rtype_dec (c : nat * (string + string * string)) : rtype :=
  rtype_wrap c.1
    match c.2 with
    | inl name => TBasic name
    | inr (pkg, name) => TNamed pkg name
    end.

#[global] Instance rtype_countable : Countable rtype.
Proof.
  refine (inj_countable' rtype_enc rtype_dec _).
  intros t. induction t as [name|pkg name|elem IH]; simpl; [done..|].
  destruct (rtype_enc elem) as [n b]. unfold rtype_dec in *. simpl in *.
  by rewrite IH.
Defined.

(** A [reflect.Type] interface value: [None] is the nil [reflect.Type] that
    [reflect.TypeOf] returns for a nil interface. *)
Abbreviation TypeKey := (option rtype).

(** Number of pointer constructors; separates a type from its pointer. *)
Fixpoint ptr_depth (t : rtype) : nat :=
  match t with
  | TPtr elem => S (ptr_depth elem)
  | _ => 0
  end.

(** ** Interface values *)

Section Values.
(** The data carried by a boxed value (struct fields and the like). *)
Context {Data : Type}.

(** A non-nil interface value: dynamic type and data. *)
Record value : Type := Value { dynType : rtype; data : Data }.

(** [interface{}] / [any]: nil or a boxed value. *)
Definition iface : Type := option value.

(** [reflect.TypeOf(x)]: the dynamic type, nil for a nil interface. *)
Definition reflect_TypeOf (x : iface) : TypeKey := dynType <$> x.

(** The verb [%T] of package fmt. *)
Definition fmt_T (x : iface) : string :=
  match reflect_TypeOf x with
  | Some t => rtype_String t
  | None => "<nil>"
  end.
End Values.
Global Arguments value : clear implicits.
Global Arguments iface : clear implicits.

(** An [error] interface value, seen through its only method. *)
Record goerror : Type := mkError { Error : string }.
Abbreviation error := (option goerror).

(** [fmt.Errorf] with an already formatted message. *)
Definition fmt_Errorf (msg : string) : error := Some (mkError msg).

(** ** State passing *)

Definition M (World A : Type) : Type := World → A * World.

#[global] Instance M_ret {World} : MRet (M World) := λ A x w, (x, w).
#[global] Instance M_bind {World} : MBind (M World) :=
  λ A B k m w, let '(x, w') := m w in k x w'.

(** World after a computation, result dropped (a call statement). *)
Definition exec {World A} (m : M World A) (w : World) : World := (m w).2.

(** ** The command router (package gocmdevt) *)

(** [type HandlerFunc func(ctx context.Context, cmd Command) (any, error)],
    with [type Command interface{}]. *)
Abbreviation HandlerFunc Data Ctx World :=
  (Ctx → iface Data → M World (iface Data * error)).

Section Router.
Context {Data Ctx World : Type}.

(** [type Command interface{}] *)
#[local] Abbreviation Command := (iface Data).
#[local] Abbreviation any := (iface Data).
#[local] Abbreviation HandlerFunc := (HandlerFunc Data Ctx World).

(** [type Module interface { Handlers() map[reflect.Type]HandlerFunc }] *)
Record AppModule : Type := { Handlers : gmap TypeKey HandlerFunc }.

(** [type App struct { handlers map[reflect.Type]HandlerFunc }] *)
Record App : Type := { handlers : gmap TypeKey HandlerFunc }.

(** The assignment [app.handlers[typ] = h]. *)
Definition assign (a : App) (typ : TypeKey) (h : HandlerFunc) : App :=
  {| handlers := <[typ := h]> (handlers a) |}.

(** The inner loop of [NewApp], [for typ, h := range m.Handlers()
    { app.handlers[typ] = h }], over the pairs in the order the range
    statement produces them. *)
Definition range_assign (app : App) (pairs : list (TypeKey * HandlerFunc))
    : App :=
  foldl (λ app '(typ, h), assign app typ h) app pairs.

(** [func NewApp(modules ...Module) *App].  Go leaves the iteration order
    of a map unspecified; [range_assign_any_order] below shows that the
    order does not matter here, so the model ranges in [map_to_list]
    order. *)
Definition NewApp (modules : list AppModule) : App :=
  let app := {| handlers := ∅ |} in
  foldl (λ app m, range_assign app (map_to_list (Handlers m))) app modules.

(** [func (a *App) Handle(ctx context.Context, cmd Command) (any, error)] *)
Definition Handle (a : App) (ctx : Ctx) (cmd : Command)
    : M World (any * error) :=
  match handlers a !! reflect_TypeOf cmd with
  | None =>
      mret (None, fmt_Errorf ("no handler for command type: " +:+ fmt_T cmd))
  | Some handler => handler ctx cmd
  end.
End Router.
Global Arguments AppModule : clear implicits.
Global Arguments App : clear implicits.

(** ** Events and the emitter (package gocmdevt) *)

(** [hex.EncodeToString]: two lower-case digits per byte, high nibble
    first. *)
Definition hextable : string := "0123456789abcdef".

Definition hexdigit (n : N) : ascii :=
  default "0"%char (String.get (N.to_nat n) hextable).

Fixpoint hex_EncodeToString (src : list byte) : string :=
  match src with
  | [] => ""
  | v :: rest =>
      String (hexdigit (N.shiftr (Byte.to_N v) 4))
        (String (hexdigit (N.land (Byte.to_N v) 15)) (hex_EncodeToString rest))
  end.

(** The value of a hex digit and the byte of a pair of digits: the way back
    from [hex_EncodeToString], one byte at a time. *)
Definition unhexdigit (c : ascii) : option N :=
  N.of_nat <$> list_find (λ c', c' = c) (list_ascii_of_string hextable) ≫= (λ p, Some p.1).

Definition unhex (hi lo : ascii) : option byte :=
  h ← unhexdigit hi; l ← unhexdigit lo; Byte.of_N (16 * h + l).

(** Writing [src] into the slice [buf] in place: a slice keeps its length,
    bytes beyond what the source delivered keep their old value. *)
Definition slice_fill (buf src : list byte) : list byte :=
  take (length buf) (src ++ drop (length src) buf).

(** [type EventHandlerFunc func(ctx context.Context, cmd Event) (any, error)] *)
Abbreviation EventHandlerFunc Data Ctx World :=
  (Ctx → iface Data → M World (iface Data * error)).

Section Events.
Context {Data Ctx World time_Time : Type}.

(** [type Event interface { EventID() string; ... }]: the pipeline only
    passes events on and asks for their dynamic type. *)
#[local] Abbreviation Event := (iface Data).
#[local] Abbreviation any := (iface Data).

(** [type BaseEvent struct]; the field [Type] is spelled [Type_] here. *)
Record BaseEvent : Type := {
  ID : string;
  Type_ : string;
  Time : time_Time;
  Aggregate : string;
  Version : Z
}.

Definition EventID (e : BaseEvent) : string := ID e.
Definition EventType (e : BaseEvent) : string := Type_ e.
Definition EventTime (e : BaseEvent) : time_Time := Time e.
Definition AggregateID (e : BaseEvent) : string := Aggregate e.
Definition EventVersion (e : BaseEvent) : Z := Version e.

(** What the Go runtime and standard library provide: the clock, the
    formatting and zone change of a [time.Time], and [crypto/rand.Read],
    which delivers the bytes it could read for a buffer of the given length
    together with its error. *)
Record Runtime : Type := {
  time_Now : M World time_Time;
  Time_UTC : time_Time → time_Time;
  Time_Format : time_Time → string → string;
  rand_Read : nat → M World (list byte * error)
}.

Context (rt : Runtime).

(** [func generateEventID() string] *)
Definition generateEventID : M World string :=
  let bytes := replicate 16 x00 in
  '(src, err) ← rand_Read rt (length bytes);
  let bytes := slice_fill bytes src in
  match err with
  | Some _ =>
      t1 ← time_Now rt;
      t2 ← time_Now rt;
      mret (Time_Format rt t1 "20060102150405" +:+ "-"
           +:+ Time_Format rt t2 "000000")
  | None => mret (hex_EncodeToString bytes)
  end.

(** [func NewBaseEvent(eventType, aggregateID string, version int) BaseEvent] *)
Definition NewBaseEvent (eventType aggregateID : string) (version : Z)
    : M World BaseEvent :=
  id ← generateEventID;
  now ← time_Now rt;
  mret {| ID := id;
         Type_ := eventType;
         Time := Time_UTC rt now;
         Aggregate := aggregateID;
         Version := version |}.

(** [type EventLogWriter interface { Write(event Event) error }] *)
Record EventLogWriter : Type := { Write : Event → M World error }.

(** [type Dispatcher interface { Dispatch(ctx context.Context, event Event) }] *)
Record Dispatcher : Type := { Dispatch : Ctx → Event → M World unit }.

(** [type EventEmitter struct { LogWriter EventLogWriter; Dispatcher Dispatcher }] *)
Record EventEmitter : Type := {
  LogWriter : EventLogWriter;
  Dispatcher' : Dispatcher
}.

(** [func NewEventEmitter(logWriter EventLogWriter, dispatcher Dispatcher) *EventEmitter] *)
Definition NewEventEmitter (logWriter : EventLogWriter)
    (dispatcher : Dispatcher) : EventEmitter :=
  {| LogWriter := logWriter; Dispatcher' := dispatcher |}.

(** [log.Printf] of the standard logger, message already formatted. *)
Context (log_Printf : string → M World unit).

(** [func (e *EventEmitter) Emit(ctx context.Context, event Event)] *)
Definition Emit (e : EventEmitter) (ctx : Ctx) (event : Event)
    : M World unit :=
  err ← Write (LogWriter e) event;
  match err with
  | Some err => log_Printf ("audit log failed: " +:+ Error err)
  | None => mret tt
  end ;;
  Dispatch (Dispatcher' e) ctx event.
End Events.
Global Arguments BaseEvent : clear implicits.
Global Arguments Runtime : clear implicits.
Global Arguments EventLogWriter : clear implicits.
Global Arguments Dispatcher : clear implicits.
Global Arguments EventEmitter : clear implicits.

(** A [for _, x := range xs { body(x) }] loop over a slice. *)
Fixpoint for_range {World A} (body : A → M World unit) (xs : list A)
    : M World unit :=
  match xs with
  | [] => mret tt
  | x :: xs => body x ;; for_range body xs
  end.

(** ** matmaster/main.go *)

Module Matmaster.
Section Dispatcher.
Context {Data Ctx World : Type}.
#[local] Abbreviation Event := (iface Data).

(** [type InMemoryDispatcher struct { handlers map[reflect.Type][]gocmdevt.EventHandlerFunc }] *)
Record InMemoryDispatcher : Type := {
  handlers : gmap TypeKey (list (EventHandlerFunc Data Ctx World))
}.

(** [func NewInMemoryDispatcher() *InMemoryDispatcher] *)
Definition NewInMemoryDispatcher : InMemoryDispatcher := {| handlers := ∅ |}.

(** [func (d *InMemoryDispatcher) Subscribe(event gocmdevt.Event, handler gocmdevt.EventHandlerFunc)];
    indexing a map at a missing key gives the nil slice. *)
Definition Subscribe (d : InMemoryDispatcher) (event : Event)
    (handler : EventHandlerFunc Data Ctx World) : InMemoryDispatcher :=
  let eventType := reflect_TypeOf event in
  {| handlers :=
       <[eventType := (handlers d !!! eventType) ++ [handler]]> (handlers d) |}.

(** The loop body [handler(ctx, event)]: both results are dropped. *)
Definition call (ctx : Ctx) (event : Event)
    (handler : EventHandlerFunc Data Ctx World) : M World unit :=
  handler ctx event ;; mret tt.

(** [func (d *InMemoryDispatcher) DispatchCtx(ctx context.Context, event gocmdevt.Event)];
    the range expression is evaluated once, so the loop runs over the list
    found when the call starts. *)
Definition DispatchCtx (d : InMemoryDispatcher) (ctx : Ctx) (event : Event)
    : M World unit :=
  let eventType := reflect_TypeOf event in
  match handlers d !! eventType with
  | Some handlers => for_range (call ctx event) handlers
  | None => mret tt
  end.

(** [func (d *InMemoryDispatcher) Dispatch(event gocmdevt.Event)] *)
Definition Dispatch (context_Background : Ctx) (d : InMemoryDispatcher)
    (event : Event) : M World unit :=
  let ctx := context_Background in
  let eventType := reflect_TypeOf event in
  match handlers d !! eventType with
  | Some handlers => for_range (call ctx event) handlers
  | None => mret tt
  end.

(** A run of [Subscribe] calls on [d], in list order. *)
Definition SubscribeAll (d : InMemoryDispatcher)
    (subs : list (Event * EventHandlerFunc Data Ctx World))
    : InMemoryDispatcher :=
  foldl (λ d '(event, handler), Subscribe d event handler) d subs.

(** Of the subscriptions [subs], the handlers subscribed for the type of
    [event], in subscription order. *)
Definition subscribed (subs : list (Event * EventHandlerFunc Data Ctx World))
    (event : Event) : list (EventHandlerFunc Data Ctx World) :=
  (filter (λ s, reflect_TypeOf s.1 = reflect_TypeOf event) subs).*2.

(** The world after calling the handlers one after the other in list
    order with [(ctx, event)], each on the world its predecessor left,
    whatever the handlers return. *)
Definition invoke_in_order (ctx : Ctx) (event : Event)
    (hs : list (EventHandlerFunc Data Ctx World)) (w : World) : World :=
  foldl (λ w handler, exec (handler ctx event) w) w hs.
End Dispatcher.
Global Arguments InMemoryDispatcher : clear implicits.
End Matmaster.

(** ** example_test.go *)

Module ExampleTest.
Section Dispatcher.
Context {Data Ctx World : Type}.
#[local] Abbreviation Event := (iface Data).

(** [type InMemoryDispatcher struct { handlers map[reflect.Type][]func(event gocmdevt.Event) }] *)
Record InMemoryDispatcher : Type := {
  handlers : gmap TypeKey (list (Event → M World unit))
}.

(** [func NewInMemoryDispatcher() *InMemoryDispatcher] *)
Definition NewInMemoryDispatcher : InMemoryDispatcher := {| handlers := ∅ |}.

(** [func (d *InMemoryDispatcher) Subscribe(eventType reflect.Type, handler func(event gocmdevt.Event))] *)
Definition Subscribe (d : InMemoryDispatcher) (eventType : TypeKey)
    (handler : Event → M World unit) : InMemoryDispatcher :=
  {| handlers :=
       <[eventType := (handlers d !!! eventType) ++ [handler]]> (handlers d) |}.

(** [func (d *InMemoryDispatcher) Dispatch(ctx context.Context, event gocmdevt.Event)] *)
Definition Dispatch (d : InMemoryDispatcher) (ctx : Ctx) (event : Event)
    : M World unit :=
  let eventType := reflect_TypeOf event in
  match handlers d !! eventType with
  | Some handlers => for_range (λ handler, handler event) handlers
  | None => mret tt
  end.

(** The dispatcher seen through the [gocmdevt.Dispatcher] interface. *)
Definition as_Dispatcher (d : InMemoryDispatcher) : Dispatcher Data Ctx World :=
  @Build_Dispatcher Data Ctx World (Dispatch d).
End Dispatcher.
Global Arguments InMemoryDispatcher : clear implicits.
End ExampleTest.

(** ** Observing calls

    To speak about which functions a run invokes, with which arguments and
    in which order, handlers and collaborators are wrapped so that every
    invocation leaves an entry in a call trace carried next to the world.
    The wrapped function behaves as the original on the world. *)

Section Observed.
Context {Data Ctx World : Type}.

Inductive call : Type :=
  | CallHandler (name : string) (ctx : Ctx) (arg : iface Data)
  | CallWrite (event : iface Data)
  | CallPrintf (msg : string)
  | CallDispatch (ctx : Ctx) (event : iface Data).

(** Run [m] on the world and record the call [c]. *)
Definition observe {A} (c : call) (m : M World A)
    : M (World * list call) A :=
  λ '(w, tr), let '(x, w') := m w in (x, (w', tr ++ [c])).

(** A named command or event handler, observed. *)
Definition observed_handler (nh : string * HandlerFunc Data Ctx World)
    : HandlerFunc Data Ctx (World * list call) :=
  λ ctx arg, observe (CallHandler nh.1 ctx arg) (nh.2 ctx arg).

(** A router all of whose handlers are observed. *)
Definition observed_App
    (named : gmap TypeKey (string * HandlerFunc Data Ctx World))
    : App Data Ctx (World * list call) :=
  {| handlers := observed_handler <$> named |}.

(** A [matmaster] dispatcher all of whose subscribers are observed. *)
Definition observed_InMemoryDispatcher
    (named : gmap TypeKey (list (string * EventHandlerFunc Data Ctx World)))
    : Matmaster.InMemoryDispatcher Data Ctx (World * list call) :=
  {| Matmaster.handlers := fmap (M:=list) observed_handler <$> named |}.

(** An emitter whose log writer, dispatcher and process logger are
    observed. *)
Definition observed_EventEmitter (e : EventEmitter Data Ctx World)
    : EventEmitter Data Ctx (World * list call) :=
  {| LogWriter :=
       {| Write := λ event, observe (CallWrite event)
                              (Write (LogWriter e) event) |};
     Dispatcher' :=
       {| Dispatch := λ ctx event, observe (CallDispatch ctx event)
                        (Dispatch (Dispatcher' e) ctx event) |} |}.

Definition observed_Printf (log_Printf : string → M World unit)
    : string → M (World * list call) unit :=
  λ msg, observe (CallPrintf msg) (log_Printf msg).
End Observed.
Global Arguments call : clear implicits.

(** ** Sample inputs

    Concrete commands, modules, subscribers and collaborators in the style of
    the package's tests and of [example_test.go], on a world that keeps a log of what
    ran, a clock and the answers of the randomness source still to come. *)

Module Sample.
Record world : Type := {
  log : list string;
  clock : Z;
  entropy : list (list byte * error)
}.

Definition Data : Type := string.
Definition Ctx : Type := string.

Definition logged (line : string) (w : world) : world :=
  {| log := log w ++ [line]; clock := clock w; entropy := entropy w |}.

(** A handler that logs its name and arguments and returns [r]. *)
Definition handler (name : string) (r : iface Data * error)
    : HandlerFunc Data Ctx world :=
  λ ctx arg w, (r, logged (name +:+ "(" +:+ ctx +:+ "," +:+ fmt_T arg +:+ ")") w).

Definition str (s : string) : iface Data := Some (Value (TBasic "string") s).

Definition CreateUserCommand : rtype := TNamed "gocmdevt" "CreateUserCommand".
Definition DeleteUserCommand : rtype := TNamed "gocmdevt" "DeleteUserCommand".
Definition UnregisteredCommand : rtype := TNamed "gocmdevt" "UnregisteredCommand".

Definition createUser := handler "createUser" (str "id=123", None).
Definition deleteUser := handler "deleteUser" (str "deleted", None).
Definition overridden := handler "overridden" (str "overridden", None).

Definition UserModule : AppModule Data Ctx world :=
  {| Handlers := {[ Some (TPtr CreateUserCommand) := createUser;
                    Some (TPtr DeleteUserCommand) := deleteUser ]} |}.
Definition OverrideModule : AppModule Data Ctx world :=
  {| Handlers := {[ Some (TPtr CreateUserCommand) := overridden ]} |}.
Definition EmptyModule : AppModule Data Ctx world := {| Handlers := ∅ |}.

(** [&CreateUserCommand{...}], [CreateUserCommand{...}] and
    [UnregisteredCommand{...}]. *)
Definition createPtr : value Data := Value (TPtr CreateUserCommand) "John".
Definition createVal : value Data := Value CreateUserCommand "John".
Definition unregistered : value Data := Value UnregisteredCommand "test".

Definition w0 : world := {| log := []; clock := 1700000000; entropy := [] |}.

(** Events and subscribers. *)
Definition OrderCreatedEvent : rtype := TNamed "simpleapp" "OrderCreatedEvent".
Definition OrderShippedEvent : rtype := TNamed "simpleapp" "OrderShippedEvent".
Definition orderCreated : iface Data := Some (Value (TPtr OrderCreatedEvent) "order-1").
Definition orderShipped : iface Data := Some (Value (TPtr OrderShippedEvent) "order-1").

Definition H1 := handler "H1" (None, fmt_Errorf "H1 failed").
Definition H2 := handler "H2" (None, None).
Definition H3 := handler "H3" (None, None).

(** Collaborators of the emitter. *)
Definition log_Printf (msg : string) : M world unit := λ w, (tt, logged msg w).
Definition okWriter : EventLogWriter Data world :=
  {| Write := λ event w, (None, logged "write" w) |}.
Definition failingWriter : EventLogWriter Data world :=
  {| Write := λ event w, (fmt_Errorf "disk full", logged "write" w) |}.
Definition notify (name : string) : iface Data → M world unit :=
  λ event w, (tt, logged (name +:+ "(" +:+ fmt_T event +:+ ")") w).

(** The runtime: the clock advances by one at every reading; the
    randomness source answers from [entropy] and fails when it is
    exhausted. *)
Definition runtime : Runtime world Z :=
  {| time_Now := λ w,
       (clock w, {| log := log w; clock := clock w + 1; entropy := entropy w |});
     Time_UTC := λ t, t;
     Time_Format := λ t layout,
       layout +:+ "@" +:+ NilZero.string_of_int (Z.to_int t);
     rand_Read := λ n w,
       match entropy w with
       | [] => (([], fmt_Errorf "entropy source unavailable"), w)
       | r :: rest =>
           (r, {| log := log w; clock := clock w; entropy := rest |})
       end |}.

Definition zeros : list byte := replicate 16 x00.
Definition w_repeating : world :=
  {| log := []; clock := 1700000000; entropy := [(zeros, None); (zeros, None)] |}.
Definition ones : list byte := replicate 16 xff.
Definition w_distinct : world :=
  {| log := []; clock := 1700000000; entropy := [(zeros, None); (ones, None)] |}.
End Sample.

(** ** Further notions

    Runs of subscriptions on the dispatcher of [example_test.go], what it
    means for modules to agree, and the alphabet of [hex.EncodeToString]. *)

Section Notions.
Context {Data Ctx World : Type}.

(** A run of [Subscribe] calls on the dispatcher of [example_test.go], in
    list order. *)
Definition ExampleTest_SubscribeAll (d : ExampleTest.InMemoryDispatcher Data World)
    (subs : list (TypeKey * (iface Data → M World unit)))
    : ExampleTest.InMemoryDispatcher Data World :=
  foldl (λ d '(eventType, handler), ExampleTest.Subscribe d eventType handler) d subs.

(** Of the subscriptions [subs], the handlers subscribed under the type of
    [event], in subscription order. *)
Definition ExampleTest_subscribed
    (subs : list (TypeKey * (iface Data → M World unit))) (event : iface Data)
    : list (iface Data → M World unit) :=
  (filter (λ s, s.1 = reflect_TypeOf event) subs).*2.

(** No two modules of the list expose different handlers for one key. *)
Definition modules_agree (ms : list (AppModule Data Ctx World)) : Prop :=
  ∀ m1 m2 k h1 h2, m1 ∈ ms → m2 ∈ ms →
    Handlers m1 !! k = Some h1 → Handlers m2 !! k = Some h2 → h1 = h2.

(** No key is exposed by two modules at different places of the list. *)
Definition modules_disjoint (ms : list (AppModule Data Ctx World)) : Prop :=
  ∀ i j m1 m2, ms !! i = Some m1 → ms !! j = Some m2 → i ≠ j →
    Handlers m1 ##ₘ Handlers m2.
End Notions.

(** The digits [hex.EncodeToString] writes. *)
Definition is_hexdigit (c : ascii) : Prop := c ∈ list_ascii_of_string hextable.

(** More sample inputs: the second module of the package's tests. *)
Module Fixtures.
Definition UpdateUserCommand : rtype := TNamed "gocmdevt" "UpdateUserCommand".
Definition updateUser := Sample.handler "updateUser" (Sample.str "updated", None).
Definition AdminModule : AppModule Sample.Data Sample.Ctx Sample.world :=
  {| Handlers := {[ Some (TPtr UpdateUserCommand) := updateUser ]} |}.
Definition orderCreated2 : iface Sample.Data :=
  Some (Value (TPtr Sample.OrderCreatedEvent) "order-2").
End Fixtures.

(** ** example_test.go: the order module and the examples

    The commands, events, module and examples of [example_test.go], on a
    world that has the standard output, the standard logger, a pending panic
    and the environment the runtime works on.  A panic is kept in the world:
    once it is pending, no statement has an effect any more, which is what
    unwinding to the top of an example without [recover] amounts to.
    [float64] values are opaque: the comparison with zero and the verb [%f]
    are taken from outside, as are the printing of non-string values with
    [%s] and the two contexts. *)

Module OrderExample.
Section Example.
Context {float64 time_Time Ctx Env : Type}.
Context (float64_le_zero : float64 → bool).
Context (fmt_f : float64 → string).
Context (context_Background context_TODO : Ctx).
Context (rt : Runtime Env time_Time).
Context (Time_IsZero : time_Time → bool).

(** [type CreateOrderCommand struct] *)
Record CreateOrderCommand : Type := {
  CreateOrderCommand_CustomerID : string;
  CreateOrderCommand_ProductID : string;
  CreateOrderCommand_Quantity : Z;
  CreateOrderCommand_TotalAmount : float64
}.

(** [type ProcessPaymentCommand struct] *)
Record ProcessPaymentCommand : Type := {
  ProcessPaymentCommand_OrderID : string;
  ProcessPaymentCommand_Amount : float64
}.

(** [type ShipOrderCommand struct] *)
Record ShipOrderCommand : Type := {
  ShipOrderCommand_OrderID : string;
  ShipOrderCommand_ShippingAddress : string
}.

(** [type OrderCreatedEvent struct], with the embedded [gocmdevt.BaseEvent]. *)
Record OrderCreatedEvent : Type := {
  OrderCreatedEvent_BaseEvent : BaseEvent time_Time;
  OrderCreatedEvent_CustomerID : string;
  OrderCreatedEvent_ProductID : string;
  OrderCreatedEvent_Quantity : Z;
  OrderCreatedEvent_TotalAmount : float64
}.

(** [type PaymentProcessedEvent struct] *)
Record PaymentProcessedEvent : Type := {
  PaymentProcessedEvent_BaseEvent : BaseEvent time_Time;
  PaymentProcessedEvent_Amount : float64;
  PaymentProcessedEvent_TransactionID : string
}.

(** [type OrderShippedEvent struct] *)
Record OrderShippedEvent : Type := {
  OrderShippedEvent_BaseEvent : BaseEvent time_Time;
  OrderShippedEvent_TrackingNumber : string;
  OrderShippedEvent_ShippingAddress : string
}.

(** The values that travel as [interface{}] in the file: strings, ints,
    floats, [map[string]interface{}], and pointers (nil or not) to the
    commands and events. *)
#[warnings="-register-all"]
Inductive gval : Type :=
  | VString (s : string)
  | VInt (n : Z)
  | VFloat (x : float64)
  | VMap (m : gmap string (iface gval))
  | VCreateOrderCommand (p : option CreateOrderCommand)
  | VProcessPaymentCommand (p : option ProcessPaymentCommand)
  | VShipOrderCommand (p : option ShipOrderCommand)
  | VOrderCreatedEvent (p : option OrderCreatedEvent)
  | VPaymentProcessedEvent (p : option PaymentProcessedEvent)
  | VOrderShippedEvent (p : option OrderShippedEvent).

Definition T_CreateOrderCommand : rtype := TNamed "gocmdevt_test" "CreateOrderCommand".
Definition T_ProcessPaymentCommand : rtype := TNamed "gocmdevt_test" "ProcessPaymentCommand".
Definition T_ShipOrderCommand : rtype := TNamed "gocmdevt_test" "ShipOrderCommand".
Definition T_OrderCreatedEvent : rtype := TNamed "gocmdevt_test" "OrderCreatedEvent".
Definition T_PaymentProcessedEvent : rtype := TNamed "gocmdevt_test" "PaymentProcessedEvent".
Definition T_OrderShippedEvent : rtype := TNamed "gocmdevt_test" "OrderShippedEvent".

(** The dynamic type of a value. *)
Definition typeof (v : gval) : rtype :=
  match v with
  | VString _ => TBasic "string"
  | VInt _ => TBasic "int"
  | VFloat _ => TBasic "float64"
  | VMap _ => TBasic "map[string]interface {}"
  | VCreateOrderCommand _ => TPtr T_CreateOrderCommand
  | VProcessPaymentCommand _ => TPtr T_ProcessPaymentCommand
  | VShipOrderCommand _ => TPtr T_ShipOrderCommand
  | VOrderCreatedEvent _ => TPtr T_OrderCreatedEvent
  | VPaymentProcessedEvent _ => TPtr T_PaymentProcessedEvent
  | VOrderShippedEvent _ => TPtr T_OrderShippedEvent
  end.

(** A value converted to an interface type. *)
Definition box (v : gval) : iface gval := Some (Value (typeof v) v).

(** What a panic carries: the argument of [panic], or one of the two run-time
    errors the file can raise. *)
Inductive panic_value : Type :=
  | PanicString (msg : string)
  | PanicInterfaceConversion
  | PanicNilDereference.

Record world : Type := {
  stdout : string;
  errlog : list string;
  panicking : option panic_value;
  env : Env
}.

(** A statement has its effect unless a panic is pending. *)
Definition unless_panicking (f : world → world) : M world unit :=
  λ w, (tt, match panicking w with Some _ => w | None => f w end).

(** [fmt.Printf], text already formatted. *)
Definition fmt_Printf (text : string) : M world unit :=
  unless_panicking (λ w,
    {| stdout := stdout w +:+ text; errlog := errlog w;
       panicking := panicking w; env := env w |}).

(** [log.Printf], message already formatted. *)
Definition log_Printf (msg : string) : M world unit :=
  unless_panicking (λ w,
    {| stdout := stdout w; errlog := errlog w ++ [msg];
       panicking := panicking w; env := env w |}).

(** [panic(v)] *)
Definition panic (v : panic_value) : M world unit :=
  unless_panicking (λ w,
    {| stdout := stdout w; errlog := errlog w;
       panicking := Some v; env := env w |}).

(** A call into the runtime, which works on the environment. *)
Definition on_env {A} (m : M Env A) : M world A :=
  λ w, ((m (env w)).1,
        match panicking w with
        | Some _ => w
        | None => {| stdout := stdout w; errlog := errlog w;
                     panicking := panicking w; env := (m (env w)).2 |}
        end).

Definition runtime : Runtime world time_Time :=
  {| time_Now := on_env (time_Now rt);
     Time_UTC := Time_UTC rt;
     Time_Format := Time_Format rt;
     rand_Read := λ n, on_env (rand_Read rt n) |}.

(** The line feed that ends the texts printed. *)
Definition LF : string := String "010"%char "".

(** The verb [%s] on an interface value: a string is printed as it is, nil
    as [%!s(<nil>)]; for other values the printing is taken from outside. *)
Context (fmt_s_other : gval → string).
Definition fmt_s (x : iface gval) : string :=
  match x with
  | None => "%!s(<nil>)"
  | Some v => match data v with VString s => s | other => fmt_s_other other end
  end.

(** The verb [%d] on an int and [%t] on a bool. *)
Definition fmt_d (n : Z) : string := NilZero.string_of_int (Z.to_int n).
Definition fmt_t (b : bool) : string := if b then "true" else "false".

(** Type assertions [x.(T)]: the dynamic type has to be [T]. *)
Definition assert_type (t : rtype) (x : iface gval) : option gval :=
  match x with
  | Some v => if decide (dynType v = t) then Some (data v) else None
  | None => None
  end.

Definition assert_CreateOrderCommand (x : iface gval) : option (option CreateOrderCommand) :=
  match assert_type (TPtr T_CreateOrderCommand) x with
  | Some (VCreateOrderCommand p) => Some p
  | _ => None
  end.
Definition assert_ProcessPaymentCommand (x : iface gval) : option (option ProcessPaymentCommand) :=
  match assert_type (TPtr T_ProcessPaymentCommand) x with
  | Some (VProcessPaymentCommand p) => Some p
  | _ => None
  end.
Definition assert_ShipOrderCommand (x : iface gval) : option (option ShipOrderCommand) :=
  match assert_type (TPtr T_ShipOrderCommand) x with
  | Some (VShipOrderCommand p) => Some p
  | _ => None
  end.
Definition assert_OrderCreatedEvent (x : iface gval) : option (option OrderCreatedEvent) :=
  match assert_type (TPtr T_OrderCreatedEvent) x with
  | Some (VOrderCreatedEvent p) => Some p
  | _ => None
  end.
Definition assert_PaymentProcessedEvent (x : iface gval) : option (option PaymentProcessedEvent) :=
  match assert_type (TPtr T_PaymentProcessedEvent) x with
  | Some (VPaymentProcessedEvent p) => Some p
  | _ => None
  end.
Definition assert_OrderShippedEvent (x : iface gval) : option (option OrderShippedEvent) :=
  match assert_type (TPtr T_OrderShippedEvent) x with
  | Some (VOrderShippedEvent p) => Some p
  | _ => None
  end.
Definition assert_map (x : iface gval) : option (gmap string (iface gval)) :=
  match assert_type (TBasic "map[string]interface {}") x with
  | Some (VMap m) => Some m
  | _ => None
  end.
Definition assert_string (x : iface gval) : option string :=
  match assert_type (TBasic "string") x with
  | Some (VString s) => Some s
  | _ => None
  end.

(** [p := x.( *T); ... p.Field ...]: the assertion panics when the dynamic
    type is another one, the first use of a field when the pointer is nil;
    no statement stands between the two in this file.  [dummy] is what the
    abandoned function is taken to return. *)
Definition with_pointee {T A} (x : option (option T)) (dummy : A)
    (k : T → M world A) : M world A :=
  match x with
  | None => panic PanicInterfaceConversion;; mret dummy
  | Some None => panic PanicNilDereference;; mret dummy
  | Some (Some pointee) => k pointee
  end.

(** The [BaseEvent] behind an [Event] whose methods are called: the events
    of the file are pointers to structs that embed it. *)
Definition base_of (event : iface gval) : option (option (BaseEvent time_Time)) :=
  match event with
  | None => Some None
  | Some v =>
      match data v with
      | VOrderCreatedEvent p => Some (OrderCreatedEvent_BaseEvent <$> p)
      | VPaymentProcessedEvent p => Some (PaymentProcessedEvent_BaseEvent <$> p)
      | VOrderShippedEvent p => Some (OrderShippedEvent_BaseEvent <$> p)
      | _ => None
      end
  end.

(** [func NewOrderCreatedEvent(orderID, customerID, productID string, quantity int, totalAmount float64) *OrderCreatedEvent] *)
Definition NewOrderCreatedEvent (orderID customerID productID : string)
    (quantity : Z) (totalAmount : float64) : M world OrderCreatedEvent :=
  base ← NewBaseEvent runtime "OrderCreated" orderID 1;
  mret {| OrderCreatedEvent_BaseEvent := base;
          OrderCreatedEvent_CustomerID := customerID;
          OrderCreatedEvent_ProductID := productID;
          OrderCreatedEvent_Quantity := quantity;
          OrderCreatedEvent_TotalAmount := totalAmount |}.

(** [func NewPaymentProcessedEvent(orderID string, amount float64, transactionID string) *PaymentProcessedEvent] *)
Definition NewPaymentProcessedEvent (orderID : string) (amount : float64)
    (transactionID : string) : M world PaymentProcessedEvent :=
  base ← NewBaseEvent runtime "PaymentProcessed" orderID 1;
  mret {| PaymentProcessedEvent_BaseEvent := base;
          PaymentProcessedEvent_Amount := amount;
          PaymentProcessedEvent_TransactionID := transactionID |}.

(** [func NewOrderShippedEvent(orderID, trackingNumber, shippingAddress string) *OrderShippedEvent] *)
Definition NewOrderShippedEvent (orderID trackingNumber shippingAddress : string)
    : M world OrderShippedEvent :=
  base ← NewBaseEvent runtime "OrderShipped" orderID 1;
  mret {| OrderShippedEvent_BaseEvent := base;
          OrderShippedEvent_TrackingNumber := trackingNumber;
          OrderShippedEvent_ShippingAddress := shippingAddress |}.

(** [func (c *ConsoleEventLogger) Write(event gocmdevt.Event) error] *)
Definition ConsoleEventLogger_Write (event : iface gval) : M world error :=
  with_pointee (base_of event) None (λ base,
    fmt_Printf ("[EVENT LOG] " +:+ EventType base +:+ " for "
                +:+ AggregateID base +:+ LF);;
    mret None).

Definition ConsoleEventLogger : EventLogWriter gval world :=
  {| Write := ConsoleEventLogger_Write |}.

(** [type OrderModule struct { eventEmitter *gocmdevt.EventEmitter }] *)
Record OrderModule : Type := {
  eventEmitter : option (EventEmitter gval Ctx world)
}.

(** [func NewOrderModule(eventEmitter *gocmdevt.EventEmitter) *OrderModule] *)
Definition NewOrderModule (eventEmitter : option (EventEmitter gval Ctx world))
    : M world OrderModule :=
  match eventEmitter with
  | None =>
      panic (PanicString "eventEmitter cannot be nil");;
      mret {| eventEmitter := None |}
  | Some _ => mret {| eventEmitter := eventEmitter |}
  end.

(** [m.eventEmitter.Emit(ctx, event)]: through a nil pointer the call
    panics at the first field it reads. *)
Definition Emit_through (e : option (EventEmitter gval Ctx world)) (ctx : Ctx)
    (event : iface gval) : M world unit :=
  match e with
  | Some e => Emit log_Printf e ctx event
  | None => panic PanicNilDereference
  end.

(** [func (m *OrderModule) createOrder(ctx context.Context, cmd gocmdevt.Command) (any, error)] *)
Definition createOrder (m : OrderModule) : HandlerFunc gval Ctx world :=
  λ ctx cmd,
  with_pointee (assert_CreateOrderCommand cmd) (None, None) (λ createCmd,
    let orderID := "order-" +:+ CreateOrderCommand_CustomerID createCmd
                   +:+ "-" +:+ CreateOrderCommand_ProductID createCmd in
    let result : gmap string (iface gval) :=
      {[ "order_id" := box (VString orderID);
         "customer_id" := box (VString (CreateOrderCommand_CustomerID createCmd));
         "product_id" := box (VString (CreateOrderCommand_ProductID createCmd));
         "quantity" := box (VInt (CreateOrderCommand_Quantity createCmd));
         "total_amount" := box (VFloat (CreateOrderCommand_TotalAmount createCmd));
         "status" := box (VString "created") ]} in
    event ← NewOrderCreatedEvent orderID
              (CreateOrderCommand_CustomerID createCmd)
              (CreateOrderCommand_ProductID createCmd)
              (CreateOrderCommand_Quantity createCmd)
              (CreateOrderCommand_TotalAmount createCmd);
    Emit_through (eventEmitter m) context_TODO (box (VOrderCreatedEvent (Some event)));;
    mret (box (VMap result), None)).

(** [func (m *OrderModule) processPayment(ctx context.Context, cmd gocmdevt.Command) (any, error)] *)
Definition processPayment (m : OrderModule) : HandlerFunc gval Ctx world :=
  λ ctx cmd,
  with_pointee (assert_ProcessPaymentCommand cmd) (None, None) (λ paymentCmd,
    if float64_le_zero (ProcessPaymentCommand_Amount paymentCmd) then
      mret (None, fmt_Errorf ("invalid payment amount: "
                              +:+ fmt_f (ProcessPaymentCommand_Amount paymentCmd)))
    else
      let transactionID := "txn-" +:+ ProcessPaymentCommand_OrderID paymentCmd in
      let result : gmap string (iface gval) :=
        {[ "order_id" := box (VString (ProcessPaymentCommand_OrderID paymentCmd));
           "amount_charged" := box (VFloat (ProcessPaymentCommand_Amount paymentCmd));
           "payment_status" := box (VString "completed");
           "transaction_id" := box (VString transactionID) ]} in
      event ← NewPaymentProcessedEvent (ProcessPaymentCommand_OrderID paymentCmd)
                (ProcessPaymentCommand_Amount paymentCmd) transactionID;
      Emit_through (eventEmitter m) context_TODO
        (box (VPaymentProcessedEvent (Some event)));;
      mret (box (VMap result), None)).

(** [func (m *OrderModule) shipOrder(ctx context.Context, cmd gocmdevt.Command) (any, error)] *)
Definition shipOrder (m : OrderModule) : HandlerFunc gval Ctx world :=
  λ ctx cmd,
  with_pointee (assert_ShipOrderCommand cmd) (None, None) (λ shipCmd,
    let trackingNumber := "TRK" +:+ ShipOrderCommand_OrderID shipCmd in
    let result : gmap string (iface gval) :=
      {[ "order_id" := box (VString (ShipOrderCommand_OrderID shipCmd));
         "shipping_address" := box (VString (ShipOrderCommand_ShippingAddress shipCmd));
         "tracking_number" := box (VString trackingNumber);
         "status" := box (VString "shipped") ]} in
    event ← NewOrderShippedEvent (ShipOrderCommand_OrderID shipCmd) trackingNumber
              (ShipOrderCommand_ShippingAddress shipCmd);
    Emit_through (eventEmitter m) context_TODO
      (box (VOrderShippedEvent (Some event)));;
    mret (box (VMap result), None)).

(** [func (m *OrderModule) Handlers() map[reflect.Type]gocmdevt.HandlerFunc] *)
Definition OrderModule_Handlers (m : OrderModule)
    : gmap TypeKey (HandlerFunc gval Ctx world) :=
  {[ Some (TPtr T_CreateOrderCommand) := createOrder m;
     Some (TPtr T_ProcessPaymentCommand) := processPayment m;
     Some (TPtr T_ShipOrderCommand) := shipOrder m ]}.

(** The module seen through the [gocmdevt.Module] interface. *)
Definition as_Module (m : OrderModule) : AppModule gval Ctx world :=
  {| Handlers := OrderModule_Handlers m |}.

(** The three subscribers of [Example]. *)
Definition notifyOrderCreated (event : iface gval) : M world unit :=
  with_pointee (assert_OrderCreatedEvent event) tt (λ orderEvent,
    fmt_Printf ("[HANDLER] Order created notification sent to customer "
                +:+ OrderCreatedEvent_CustomerID orderEvent +:+ LF)).

Definition notifyPaymentProcessed (event : iface gval) : M world unit :=
  with_pointee (assert_PaymentProcessedEvent event) tt (λ paymentEvent,
    fmt_Printf ("[HANDLER] Payment confirmation email sent for order "
                +:+ AggregateID (PaymentProcessedEvent_BaseEvent paymentEvent) +:+ LF)).

Definition notifyOrderShipped (event : iface gval) : M world unit :=
  with_pointee (assert_OrderShippedEvent event) tt (λ shippedEvent,
    fmt_Printf ("[HANDLER] Shipping notification sent with tracking "
                +:+ OrderShippedEvent_TrackingNumber shippedEvent +:+ LF)).

(** The constant [99.99]. *)
Context (amount_99_99 : float64).

(** [m[key]] on a [map[string]interface{}]: nil for a missing key. *)
Definition index (m : gmap string (iface gval)) (key : string) : iface gval :=
  default None (m !! key).

(** [func Example()].  The keys of the subscriptions are
    [reflect.TypeOf(&OrderCreatedEvent{})] and so on. *)
Definition Example : M world unit :=
  let logger := ConsoleEventLogger in
  let dispatcher := ExampleTest.NewInMemoryDispatcher in
  let dispatcher := ExampleTest.Subscribe dispatcher
                      (Some (TPtr T_OrderCreatedEvent)) notifyOrderCreated in
  let dispatcher := ExampleTest.Subscribe dispatcher
                      (Some (TPtr T_PaymentProcessedEvent)) notifyPaymentProcessed in
  let dispatcher := ExampleTest.Subscribe dispatcher
                      (Some (TPtr T_OrderShippedEvent)) notifyOrderShipped in
  let eventEmitter := NewEventEmitter logger (ExampleTest.as_Dispatcher dispatcher) in
  orderModule ← NewOrderModule (Some eventEmitter);
  let app := NewApp [as_Module orderModule] in
  let ctx := context_Background in
  let createOrderCmd :=
    box (VCreateOrderCommand (Some
      {| CreateOrderCommand_CustomerID := "customer-123";
         CreateOrderCommand_ProductID := "product-456";
         CreateOrderCommand_Quantity := 2;
         CreateOrderCommand_TotalAmount := amount_99_99 |})) in
  '(result, err) ← Handle app ctx createOrderCmd;
  match err with
  | Some err => log_Printf ("Error creating order: " +:+ Error err)
  | None =>
  match assert_map result with
  | None => panic PanicInterfaceConversion
  | Some orderResult =>
  fmt_Printf ("Order created: " +:+ fmt_s (index orderResult "order_id") +:+ LF);;
  match assert_string (index orderResult "order_id") with
  | None => panic PanicInterfaceConversion
  | Some orderID =>
  let processPaymentCmd :=
    box (VProcessPaymentCommand (Some
      {| ProcessPaymentCommand_OrderID := orderID;
         ProcessPaymentCommand_Amount := amount_99_99 |})) in
  '(paymentResult, err) ← Handle app ctx processPaymentCmd;
  match err with
  | Some err => log_Printf ("Error processing payment: " +:+ Error err)
  | None =>
  match assert_map paymentResult with
  | None => panic PanicInterfaceConversion
  | Some payment =>
  fmt_Printf ("Payment processed: " +:+ fmt_s (index payment "transaction_id") +:+ LF);;
  match assert_string (index orderResult "order_id") with
  | None => panic PanicInterfaceConversion
  | Some orderID =>
  let shipOrderCmd :=
    box (VShipOrderCommand (Some
      {| ShipOrderCommand_OrderID := orderID;
         ShipOrderCommand_ShippingAddress := "123 Main St, City, State 12345" |})) in
  '(shipResult, err) ← Handle app ctx shipOrderCmd;
  match err with
  | Some err => log_Printf ("Error shipping order: " +:+ Error err)
  | None =>
  match assert_map shipResult with
  | None => panic PanicInterfaceConversion
  | Some shipping =>
  fmt_Printf ("Order shipped: " +:+ fmt_s (index shipping "tracking_number") +:+ LF)
  end end end end end end end end.

(** The text after [// Output:] in [Example], every line ended by a line
    feed. *)
Definition Example_Output : string :=
  "[EVENT LOG] OrderCreated for order-customer-123-product-456" +:+ LF +:+
  "[HANDLER] Order created notification sent to customer customer-123" +:+ LF +:+
  "Order created: order-customer-123-product-456" +:+ LF +:+
  "[EVENT LOG] PaymentProcessed for order-customer-123-product-456" +:+ LF +:+
  "[HANDLER] Payment confirmation email sent for order order-customer-123-product-456" +:+ LF +:+
  "Payment processed: txn-order-customer-123-product-456" +:+ LF +:+
  "[EVENT LOG] OrderShipped for order-customer-123-product-456" +:+ LF +:+
  "[HANDLER] Shipping notification sent with tracking TRKorder-customer-123-product-456" +:+ LF +:+
  "Order shipped: TRKorder-customer-123-product-456" +:+ LF.

(** [func ExampleEvent_metadata()] *)
Definition ExampleEvent_metadata : M world unit :=
  event ← NewOrderCreatedEvent "order-123" "customer-456" "product-789" 2 amount_99_99;
  let base := OrderCreatedEvent_BaseEvent event in
  fmt_Printf ("Event Type: " +:+ EventType base +:+ LF);;
  fmt_Printf ("Aggregate ID: " +:+ AggregateID base +:+ LF);;
  fmt_Printf ("Event Version: " +:+ fmt_d (EventVersion base) +:+ LF);;
  fmt_Printf ("Has Event ID: "
              +:+ fmt_t (bool_decide (0 < String.length (EventID base))) +:+ LF);;
  fmt_Printf ("Has Timestamp: "
              +:+ fmt_t (negb (Time_IsZero (EventTime base))) +:+ LF);;
  fmt_Printf ("Customer ID: " +:+ OrderCreatedEvent_CustomerID event +:+ LF).

(** The text after [// Output:] in [ExampleEvent_metadata], every line ended
    by a line feed. *)
Definition ExampleEvent_metadata_Output : string :=
  "Event Type: OrderCreated" +:+ LF +:+
  "Aggregate ID: order-123" +:+ LF +:+
  "Event Version: 1" +:+ LF +:+
  "Has Event ID: true" +:+ LF +:+
  "Has Timestamp: true" +:+ LF +:+
  "Customer ID: customer-456" +:+ LF.

(** The world a program starts in. *)
Definition start (e : Env) : world :=
  {| stdout := ""; errlog := []; panicking := None; env := e |}.

(** [recover()] at the start of a deferred function: it gives the pending
    panic, if any, and ends the panicking. *)
Definition recover : M world (option panic_value) :=
  λ w, (panicking w,
        {| stdout := stdout w; errlog := errlog w;
           panicking := None; env := env w |}).

(** The verb [%v] on a recovered value: the argument of [panic] when it is
    a string; the text of a run-time error is taken from outside. *)
Context (fmt_v_runtime_error : panic_value → string).
Definition fmt_v (v : panic_value) : string :=
  match v with
  | PanicString msg => msg
  | other => fmt_v_runtime_error other
  end.

(** [func ExampleOrderModule_nilEventEmitter()]: the deferred function runs
    when the body has returned or panicked. *)
Definition ExampleOrderModule_nilEventEmitter : M world unit :=
  let deferred : M world unit :=
    r ← recover;
    match r with
    | Some r => fmt_Printf ("Panic caught: " +:+ fmt_v r +:+ LF)
    | None => mret tt
    end in
  NewOrderModule None;;
  deferred.

(** The text after [// Output:] in [ExampleOrderModule_nilEventEmitter]. *)
Definition ExampleOrderModule_nilEventEmitter_Output : string :=
  "Panic caught: eventEmitter cannot be nil" +:+ LF.

(** Worlds that differ from [w] in one part, and the world after the
    subscribers of an event have run. *)
Definition with_env (e : Env) (w : world) : world :=
  {| stdout := stdout w; errlog := errlog w; panicking := panicking w; env := e |}.

Definition printed (text : string) (w : world) : world :=
  {| stdout := stdout w +:+ text; errlog := errlog w;
     panicking := panicking w; env := env w |}.

Definition delivered (d : ExampleTest.InMemoryDispatcher gval world)
    (event : iface gval) (w : world) : world :=
  foldl (λ w handler, exec (handler event) w) w
    (ExampleTest.handlers d !!! reflect_TypeOf event).

(** The emitter of the examples: the console logger and an in-memory
    dispatcher. *)
Definition console_emitter (d : ExampleTest.InMemoryDispatcher gval world)
    : EventEmitter gval Ctx world :=
  NewEventEmitter ConsoleEventLogger (ExampleTest.as_Dispatcher d).
End Example.
End OrderExample.

(** ** matmaster/main.go: the student module

    The command, the module and the console logger of [matmaster/main.go], on
    the world of the order module.  The event the module emits is a
    [gocmdevt.BaseEvent] value; how a [time.Time] prints with [%s] is taken
    from outside. *)

Module StudentExample.
Section Student.
Context {time_Time Ctx Env : Type}.
Context (rt : Runtime Env time_Time).
Context (fmt_time : time_Time → string).

#[local] Abbreviation world := (@OrderExample.world Env).

(** [type CreateStudentCommand struct] *)
Record CreateStudentCommand : Type := {
  CreateStudentCommand_ID : string;
  CreateStudentCommand_Name : string;
  CreateStudentCommand_Age : Z
}.

(** The values that travel as interface values in the file: pointers to the
    command and [BaseEvent]s. *)
Inductive sval : Type :=
  | VCreateStudentCommand (p : option CreateStudentCommand)
  | VBaseEvent (e : BaseEvent time_Time).

Definition T_CreateStudentCommand : rtype := TNamed "main" "CreateStudentCommand".
Definition T_BaseEvent : rtype := TNamed "gocmdevt" "BaseEvent".

Definition typeof (v : sval) : rtype :=
  match v with
  | VCreateStudentCommand _ => TPtr T_CreateStudentCommand
  | VBaseEvent _ => T_BaseEvent
  end.

Definition box (v : sval) : iface sval := Some (Value (typeof v) v).

(** [cmd.( *CreateStudentCommand)] *)
Definition assert_CreateStudentCommand (x : iface sval)
    : option (option CreateStudentCommand) :=
  match x with
  | Some v =>
      match data v with
      | VCreateStudentCommand p =>
          if decide (dynType v = TPtr T_CreateStudentCommand) then Some p else None
      | _ => None
      end
  | None => None
  end.

(** The [BaseEvent] behind an [Event] whose methods are called. *)
Definition base_of (event : iface sval) : option (option (BaseEvent time_Time)) :=
  match event with
  | None => Some None
  | Some v =>
      match data v with
      | VBaseEvent e => Some (Some e)
      | _ => None
      end
  end.

(** [func (l *ConsoleEventLogger) Write(event gocmdevt.Event) error] *)
Definition ConsoleEventLogger_Write (event : iface sval) : M world error :=
  OrderExample.with_pointee (base_of event) None (λ base,
    OrderExample.log_Printf
      ("Event logged: " +:+ EventType base +:+ " at " +:+ fmt_time (EventTime base)
       +:+ ". ID: " +:+ EventID base);;
    mret None).

Definition ConsoleEventLogger : EventLogWriter sval world :=
  {| Write := ConsoleEventLogger_Write |}.

(** [type StudentModule struct { eventEmitter *gocmdevt.EventEmitter }] *)
Record StudentModule : Type := {
  eventEmitter : option (EventEmitter sval Ctx world)
}.

(** [func NewStudentModule(eventEmitter *gocmdevt.EventEmitter) *StudentModule] *)
Definition NewStudentModule (eventEmitter : option (EventEmitter sval Ctx world))
    : M world StudentModule :=
  match eventEmitter with
  | None =>
      OrderExample.panic (OrderExample.PanicString "eventEmitter cannot be nil");;
      mret {| eventEmitter := None |}
  | Some _ => mret {| eventEmitter := eventEmitter |}
  end.

(** [m.eventEmitter.Emit(ctx, event)] *)
Definition Emit_through (e : option (EventEmitter sval Ctx world)) (ctx : Ctx)
    (event : iface sval) : M world unit :=
  match e with
  | Some e => Emit OrderExample.log_Printf e ctx event
  | None => OrderExample.panic OrderExample.PanicNilDereference
  end.

(** [func (m *StudentModule) createStudent(ctx context.Context, cmd gocmdevt.Command) (any, error)] *)
Definition createStudent (m : StudentModule) : HandlerFunc sval Ctx world :=
  λ ctx cmd,
  OrderExample.with_pointee (assert_CreateStudentCommand cmd) (None, None)
    (λ createCmd,
      event ← NewBaseEvent (OrderExample.runtime rt) "student_created"
                (CreateStudentCommand_ID createCmd) 1;
      Emit_through (eventEmitter m) ctx (box (VBaseEvent event));;
      mret (None, None)).

(** [func (m *StudentModule) Handlers() map[reflect.Type]gocmdevt.HandlerFunc] *)
Definition StudentModule_Handlers (m : StudentModule)
    : gmap TypeKey (HandlerFunc sval Ctx world) :=
  {[ Some (TPtr T_CreateStudentCommand) := createStudent m ]}.

(** The module seen through the [gocmdevt.Module] interface. *)
Definition as_Module (m : StudentModule) : AppModule sval Ctx world :=
  {| Handlers := StudentModule_Handlers m |}.

(** The world with one more line in the error log. *)
Definition logged (msg : string) (w : world) : world :=
  {| OrderExample.stdout := OrderExample.stdout w;
     OrderExample.errlog := OrderExample.errlog w ++ [msg];
     OrderExample.panicking := OrderExample.panicking w;
     OrderExample.env := OrderExample.env w |}.
End Student.
End StudentExample.

(** Sample inputs for the order module: amounts in whole numbers, a clock
    that stands still at a time other than zero, and a randomness source that
    delivers zeros. *)
Module OrderFixtures.
Definition float64 : Type := Z.
Definition le_zero (x : float64) : bool := bool_decide (x ≤ 0)%Z.
Definition fmt_f (x : float64) : string := NilZero.string_of_int (Z.to_int x).
Definition Ctx : Type := string.
Definition Env : Type := unit.
Definition rt : Runtime Env Z :=
  {| time_Now := λ e, (1700000000%Z, e);
     Time_UTC := λ t, t;
     Time_Format := λ t layout, layout;
     rand_Read := λ n e, ((replicate n x00, None), e) |}.
Definition IsZero (t : Z) : bool := bool_decide (t = 0%Z).
Definition gval : Type := @OrderExample.gval float64 Z.
Definition world : Type := @OrderExample.world Env.
Definition fmt_s_other (v : gval) : string := "?".
Definition fmt_v_runtime_error (v : OrderExample.panic_value) : string := "runtime error".

Definition quiet : ExampleTest.InMemoryDispatcher gval world :=
  ExampleTest.NewInMemoryDispatcher.
Definition module : OrderExample.OrderModule :=
  {| OrderExample.eventEmitter :=
       Some (OrderExample.console_emitter (Ctx:=Ctx) quiet) |}.
Definition app : App gval Ctx world :=
  NewApp [OrderExample.as_Module le_zero fmt_f "todo" rt module].

Definition order : OrderExample.CreateOrderCommand :=
  {| OrderExample.CreateOrderCommand_CustomerID := "c1";
     OrderExample.CreateOrderCommand_ProductID := "p1";
     OrderExample.CreateOrderCommand_Quantity := 3;
     OrderExample.CreateOrderCommand_TotalAmount := 250%Z |}.
Definition payment : OrderExample.ProcessPaymentCommand :=
  {| OrderExample.ProcessPaymentCommand_OrderID := "order-c1-p1";
     OrderExample.ProcessPaymentCommand_Amount := 250%Z |}.
Definition refund : OrderExample.ProcessPaymentCommand :=
  {| OrderExample.ProcessPaymentCommand_OrderID := "order-c1-p1";
     OrderExample.ProcessPaymentCommand_Amount := (-5)%Z |}.
Definition shipment : OrderExample.ShipOrderCommand :=
  {| OrderExample.ShipOrderCommand_OrderID := "order-c1-p1";
     OrderExample.ShipOrderCommand_ShippingAddress := "1 Main St" |}.
Definition w0 : world := OrderExample.start tt.
End OrderFixtures.

(** Sample inputs for the student module. *)
Module StudentFixtures.
Definition sval : Type := @StudentExample.sval Z.
Definition silent : Dispatcher sval OrderFixtures.Ctx OrderFixtures.world :=
  {| Dispatch := λ ctx event, mret tt |}.
Definition fmt_time (t : Z) : string := NilZero.string_of_int (Z.to_int t).
Definition emitter : EventEmitter sval OrderFixtures.Ctx OrderFixtures.world :=
  NewEventEmitter (StudentExample.ConsoleEventLogger fmt_time) silent.
Definition student : StudentExample.CreateStudentCommand :=
  {| StudentExample.CreateStudentCommand_ID := "student-123";
     StudentExample.CreateStudentCommand_Name := "John Doe";
     StudentExample.CreateStudentCommand_Age := 20 |}.
End StudentFixtures.

(** * Properties *)

(** ** Runtime types *)

Lemma ptr_depth_TPtr t : ptr_depth (TPtr t) = S (ptr_depth t).
Proof. done. Qed.

Lemma TPtr_neq t : TPtr t ≠ t.
Proof. intros H. apply (f_equal ptr_depth) in H. simpl in H. lia. Qed.

Lemma TypeKey_ptr_neq t : Some (TPtr t) ≠ Some t.
Proof. intros [= H]. by apply TPtr_neq in H. Qed.

(** ** The router *)

Section RouterProperties.
Context {Data Ctx World : Type}.
Implicit Types (a : App Data Ctx World) (m : AppModule Data Ctx World).
Implicit Types (h : HandlerFunc Data Ctx World) (k : TypeKey).

Lemma handlers_assign a typ h :
  handlers (assign a typ h) = <[typ := h]> (handlers a).
Proof. done. Qed.

Lemma range_assign_snoc a pairs typ h :
  range_assign a (pairs ++ [(typ, h)]) = assign (range_assign a pairs) typ h.
Proof. unfold range_assign. by rewrite foldl_snoc. Qed.

(** After the loop the map holds the pairs, later ones over earlier ones,
    on top of what it held before. *)
Lemma handlers_range_assign a pairs :
  handlers (range_assign a pairs) = list_to_map (reverse pairs) ∪ handlers a.
Proof.
  induction pairs as [|[typ h] pairs IH] using rev_ind.
  - simpl. by rewrite (left_id_L ∅ (∪)).
  - rewrite range_assign_snoc, handlers_assign, IH, reverse_snoc. simpl.
    by rewrite insert_union_l.
Qed.

(** Whatever order the range statement enumerates a module's map in, the
    loop leaves the module's entries on top of the router's. *)
Lemma range_assign_any_order a (hs : gmap TypeKey (HandlerFunc Data Ctx World)) pairs :
  pairs ≡ₚ map_to_list hs →
  handlers (range_assign a pairs) = hs ∪ handlers a.
Proof.
  intros Hperm. rewrite handlers_range_assign. f_equal.
  rewrite <-(list_to_map_to_list hs). apply list_to_map_proper.
  - rewrite reverse_Permutation, Hperm. apply NoDup_fst_map_to_list.
  - by rewrite reverse_Permutation.
Qed.

Lemma NewApp_nil : handlers (NewApp (Data:=Data) (Ctx:=Ctx) (World:=World) []) = ∅.
Proof. done. Qed.

Lemma NewApp_snoc ms m :
  handlers (NewApp (ms ++ [m])) = Handlers m ∪ handlers (NewApp ms).
Proof.
  unfold NewApp. rewrite foldl_snoc. by apply range_assign_any_order.
Qed.

Lemma NewApp_lookup_snoc ms m k :
  handlers (NewApp (ms ++ [m])) !! k =
    match Handlers m !! k with
    | Some h => Some h
    | None => handlers (NewApp ms) !! k
    end.
Proof.
  rewrite NewApp_snoc, lookup_union.
  destruct (Handlers m !! k), (handlers (NewApp ms) !! k); done.
Qed.

Lemma NewApp_lookup_last ms1 m ms2 k h :
  Handlers m !! k = Some h →
  Forall (λ m', Handlers m' !! k = None) ms2 →
  handlers (NewApp (ms1 ++ m :: ms2)) !! k = Some h.
Proof.
  intros Hm. induction ms2 as [|m' ms2 IH] using rev_ind; intros Hlater.
  - by rewrite NewApp_lookup_snoc, Hm.
  - apply Forall_app in Hlater as [Hlater Hm']. rewrite Forall_singleton in Hm'.
    replace (ms1 ++ m :: ms2 ++ [m']) with ((ms1 ++ m :: ms2) ++ [m'])
      by (by rewrite <-app_assoc).
    rewrite NewApp_lookup_snoc, Hm'. by apply IH.
Qed.

Lemma Handle_Some a ctx cmd h :
  handlers a !! reflect_TypeOf cmd = Some h → Handle a ctx cmd = h ctx cmd.
Proof. intros H. unfold Handle. by rewrite H. Qed.

Lemma Handle_None a ctx cmd w :
  handlers a !! reflect_TypeOf cmd = None →
  Handle a ctx cmd w =
    ((None, Some (mkError ("no handler for command type: " +:+ fmt_T cmd))), w).
Proof. intros H. unfold Handle. by rewrite H. Qed.
End RouterProperties.

Section RouterClaims.
Context {Data Ctx World : Type}.
Implicit Types (a : App Data Ctx World) (m : AppModule Data Ctx World).
Implicit Types (h : HandlerFunc Data Ctx World) (k : TypeKey).

(** C1. Router override is last-registration-wins.  [NewApp] takes the
    modules in list order and lays each module's entries over what the
    earlier modules registered (whatever order the range over the module's
    map runs in); so a key registered by a module and by no later module
    resolves to that module's handler, also when earlier modules registered
    the same key, and [Handle] then runs that handler.  [NewApp] returns a
    router for every module list: it has no error result. *)
Theorem NewApp_last_registration_wins ms1 m ms2 k h :
  Handlers m !! k = Some h →
  Forall (λ m', Handlers m' !! k = None) ms2 →
  handlers (NewApp (ms1 ++ [m])) = Handlers m ∪ handlers (NewApp ms1) ∧
  (∀ pairs, pairs ≡ₚ map_to_list (Handlers m) →
     handlers (range_assign (NewApp ms1) pairs) = handlers (NewApp (ms1 ++ [m]))) ∧
  handlers (NewApp (ms1 ++ m :: ms2)) !! k = Some h ∧
  (∀ ctx cmd, reflect_TypeOf cmd = k →
     Handle (NewApp (ms1 ++ m :: ms2)) ctx cmd = h ctx cmd).
Proof.
  intros Hm Hlater. split_and!.
  - apply NewApp_snoc.
  - intros pairs Hperm. by rewrite NewApp_snoc, (range_assign_any_order _ _ _ Hperm).
  - by apply NewApp_lookup_last.
  - intros ctx cmd <-. apply Handle_Some. by apply NewApp_lookup_last.
Qed.

(** C2. Dispatch of a command whose type has no registered handler returns
    a nil result and the error "no handler for command type: " followed by
    what [%T] prints for the command (the name of its concrete type), and
    leaves the world as it was: no handler has run. *)
Theorem Handle_unregistered a ctx cmd w :
  handlers a !! reflect_TypeOf cmd = None →
  Handle a ctx cmd w =
    ((None, Some (mkError ("no handler for command type: " +:+ fmt_T cmd))), w) ∧
  (∀ v, cmd = Some v → fmt_T cmd = rtype_String (dynType v)).
Proof.
  intros Hk. split; [by apply Handle_None|]. by intros v ->.
Qed.

(** C3. Dispatch is a pure pass-through: when the command's type has a
    registered handler, [Handle] is that handler applied to the given
    context and command, so result, error and effect on the world are the
    handler's; when the handlers are observed, the call trace grows by
    exactly one call, of that handler with [(ctx, cmd)]. *)
Theorem Handle_pass_through a (ctx : Ctx) (cmd : iface Data) h
    (named : gmap TypeKey (string * HandlerFunc Data Ctx World))
    (name : string) (w : World) (tr : list (call Data Ctx)) :
  handlers a !! reflect_TypeOf cmd = Some h →
  named !! reflect_TypeOf cmd = Some (name, h) →
  Handle a ctx cmd = h ctx cmd ∧
  Handle (observed_App named) ctx cmd (w, tr) =
    ((h ctx cmd w).1, ((h ctx cmd w).2, tr ++ [CallHandler name ctx cmd])).
Proof.
  intros Ha Hnamed. split; [by apply Handle_Some|].
  rewrite (Handle_Some _ _ _ (observed_handler (name, h))).
  - unfold observed_handler, observe. simpl. by destruct (h ctx cmd w).
  - unfold observed_App. simpl. by rewrite lookup_fmap, Hnamed.
Qed.

(** C7. A type and the pointer to it are different keys.  Registering a
    handler under one of them leaves dispatch of a command of the other
    form as it was, so a form that had no handler still fails with the
    unregistered-command error; a command of exactly the registered form
    reaches the registered handler. *)
Theorem pointer_and_value_are_distinct_keys a h ctx (v p : value Data) w :
  dynType p = TPtr (dynType v) →
  reflect_TypeOf (Some p) ≠ reflect_TypeOf (Some v) ∧
  Handle (assign a (Some (TPtr (dynType v))) h) ctx (Some v) = Handle a ctx (Some v) ∧
  Handle (assign a (Some (dynType v)) h) ctx (Some p) = Handle a ctx (Some p) ∧
  (handlers a !! Some (dynType v) = None →
     Handle (assign a (Some (TPtr (dynType v))) h) ctx (Some v) w =
       ((None, Some (mkError ("no handler for command type: "
                              +:+ rtype_String (dynType v)))), w)) ∧
  (handlers a !! Some (TPtr (dynType v)) = None →
     Handle (assign a (Some (dynType v)) h) ctx (Some p) w =
       ((None, Some (mkError ("no handler for command type: *"
                              +:+ rtype_String (dynType v)))), w)) ∧
  Handle (NewApp [{| Handlers := {[ Some (TPtr (dynType v)) := h ]} |}]) ctx (Some v) w =
    ((None, Some (mkError ("no handler for command type: "
                           +:+ rtype_String (dynType v)))), w) ∧
  Handle (NewApp [{| Handlers := {[ Some (dynType v) := h ]} |}]) ctx (Some p) w =
    ((None, Some (mkError ("no handler for command type: *"
                           +:+ rtype_String (dynType v)))), w) ∧
  Handle (assign a (Some (TPtr (dynType v))) h) ctx (Some p) = h ctx (Some p) ∧
  Handle (assign a (Some (dynType v)) h) ctx (Some v) = h ctx (Some v).
Proof.
  intros Hp.
  assert (Hne : Some (TPtr (dynType v)) ≠ Some (dynType v))
    by apply TypeKey_ptr_neq.
  assert (Hval : ∀ a', handlers a' !! Some (dynType v) = None →
    Handle a' ctx (Some v) w =
      ((None, Some (mkError ("no handler for command type: "
                             +:+ rtype_String (dynType v)))), w)).
  { intros a' Ha'. by rewrite Handle_None. }
  assert (Hptr : ∀ a', handlers a' !! Some (TPtr (dynType v)) = None →
    Handle a' ctx (Some p) w =
      ((None, Some (mkError ("no handler for command type: *"
                             +:+ rtype_String (dynType v)))), w)).
  { intros a' Ha'. rewrite Handle_None.
    - unfold fmt_T. simpl. by rewrite Hp.
    - simpl. by rewrite Hp. }
  split_and!.
  - simpl. by rewrite Hp.
  - unfold Handle. simpl. by rewrite lookup_insert_ne.
  - unfold Handle. simpl. rewrite Hp. by rewrite lookup_insert_ne.
  - intros Ha. apply Hval. simpl. by rewrite lookup_insert_ne.
  - intros Ha. apply Hptr. simpl. by rewrite lookup_insert_ne.
  - apply Hval. change [?x] with ([] ++ [x]).
    rewrite NewApp_lookup_snoc. simpl. by rewrite lookup_singleton_ne.
  - apply Hptr. change [?x] with ([] ++ [x]).
    rewrite NewApp_lookup_snoc. simpl. by rewrite lookup_singleton_ne.
  - apply Handle_Some. simpl. rewrite Hp. by rewrite lookup_insert_eq.
  - apply Handle_Some. simpl. by rewrite lookup_insert_eq.
Qed.
End RouterClaims.

(** On the sample router: [UserModule] and [OverrideModule] both
    register [*CreateUserCommand]; whichever comes later wins. *)
Lemma NewApp_last_registration_wins_witness :
  let k := Some (TPtr Sample.CreateUserCommand) in
  (Handlers Sample.OverrideModule !! k = Some Sample.overridden ∧
   Forall (λ m', Handlers m' !! k = None) [Sample.EmptyModule] ∧
   handlers (NewApp [Sample.UserModule; Sample.OverrideModule; Sample.EmptyModule]) !! k
     = Some Sample.overridden) ∧
  (Handlers Sample.UserModule !! k = Some Sample.createUser ∧
   handlers (NewApp [Sample.OverrideModule; Sample.UserModule]) !! k
     = Some Sample.createUser).
Proof.
  intros k.
  assert (H1 : Handlers Sample.OverrideModule !! k = Some Sample.overridden)
    by (vm_compute; reflexivity).
  assert (H2 : Forall (λ m', Handlers m' !! k = None) [Sample.EmptyModule])
    by (constructor; [vm_compute; reflexivity | constructor]).
  assert (H3 : Handlers Sample.UserModule !! k = Some Sample.createUser)
    by (vm_compute; reflexivity).
  split; [split_and!; [exact H1 | exact H2 |] | split; [exact H3 |]].
  - exact (proj1 (proj2 (proj2
      (NewApp_last_registration_wins [Sample.UserModule] Sample.OverrideModule
         [Sample.EmptyModule] k Sample.overridden H1 H2)))).
  - exact (proj1 (proj2 (proj2
      (NewApp_last_registration_wins [Sample.OverrideModule] Sample.UserModule
         [] k Sample.createUser H3 (Forall_nil_2 _))))).
Defined.

Lemma Handle_unregistered_witness :
  handlers (NewApp [Sample.UserModule]) !! reflect_TypeOf (Some Sample.unregistered) = None ∧
  Handle (NewApp [Sample.UserModule]) "ctx" (Some Sample.unregistered) Sample.w0 =
    ((None, Some (mkError "no handler for command type: gocmdevt.UnregisteredCommand")),
     Sample.w0).
Proof.
  assert (H : handlers (NewApp [Sample.UserModule])
                !! reflect_TypeOf (Some Sample.unregistered) = None)
    by (vm_compute; reflexivity).
  split; [exact H |].
  exact (proj1 (Handle_unregistered (NewApp [Sample.UserModule]) "ctx"
                  (Some Sample.unregistered) Sample.w0 H)).
Defined.

Lemma Handle_pass_through_witness :
  let k := Some (TPtr Sample.CreateUserCommand) in
  let named : gmap TypeKey (string * HandlerFunc Sample.Data Sample.Ctx Sample.world) :=
    {[ k := ("createUser", Sample.createUser) ]} in
  handlers (NewApp [Sample.UserModule]) !! reflect_TypeOf (Some Sample.createPtr)
    = Some Sample.createUser ∧
  named !! reflect_TypeOf (Some Sample.createPtr) = Some ("createUser", Sample.createUser) ∧
  Handle (NewApp [Sample.UserModule]) "ctx" (Some Sample.createPtr) =
    Sample.createUser "ctx" (Some Sample.createPtr) ∧
  (Handle (observed_App named) "ctx" (Some Sample.createPtr) (Sample.w0, [])).2.2 =
    [CallHandler "createUser" "ctx" (Some Sample.createPtr)].
Proof.
  intros k named.
  assert (H1 : handlers (NewApp [Sample.UserModule])
                 !! reflect_TypeOf (Some Sample.createPtr) = Some Sample.createUser)
    by (vm_compute; reflexivity).
  assert (H2 : named !! reflect_TypeOf (Some Sample.createPtr)
                 = Some ("createUser", Sample.createUser))
    by (vm_compute; reflexivity).
  split_and!; [exact H1 | exact H2 | |].
  - exact (proj1 (Handle_pass_through _ "ctx" (Some Sample.createPtr) _ named
                    "createUser" Sample.w0 [] H1 H2)).
  - exact (f_equal (λ x, x.2.2)
             (proj2 (Handle_pass_through _ "ctx" (Some Sample.createPtr) _ named
                       "createUser" Sample.w0 [] H1 H2))).
Defined.

Lemma pointer_and_value_are_distinct_keys_witness :
  dynType Sample.createPtr = TPtr (dynType Sample.createVal) ∧
  Handle (NewApp [{| Handlers :=
                      {[ Some (TPtr Sample.CreateUserCommand) := Sample.createUser ]} |}])
    "ctx" (Some Sample.createVal) Sample.w0 =
    ((None, Some (mkError "no handler for command type: gocmdevt.CreateUserCommand")),
     Sample.w0) ∧
  Handle (assign (NewApp []) (Some (TPtr Sample.CreateUserCommand)) Sample.createUser)
    "ctx" (Some Sample.createPtr) = Sample.createUser "ctx" (Some Sample.createPtr).
Proof.
  assert (H : dynType Sample.createPtr = TPtr (dynType Sample.createVal))
    by reflexivity.
  pose proof (pointer_and_value_are_distinct_keys
                (NewApp []) Sample.createUser "ctx"
                Sample.createVal Sample.createPtr Sample.w0 H) as He.
  split_and!; [exact H | |].
  - exact (proj1 (proj2 (proj2 (proj2 (proj2 (proj2 He)))))).
  - exact (proj1 (proj2 (proj2 (proj2 (proj2 (proj2 (proj2 (proj2 He)))))))).
Defined.

(** ** The subscription registry *)

Lemma for_range_foldl {World A} (body : A → M World unit) (xs : list A) w :
  for_range body xs w = (tt, foldl (λ w x, exec (body x) w) w xs).
Proof.
  revert w. induction xs as [|x xs IH]; intros w; [done|].
  simpl. unfold mbind, M_bind, exec. destruct (body x w) as [[] w']. apply IH.
Qed.

Section MatmasterProperties.
Context {Data Ctx World : Type}.
Implicit Types (d : Matmaster.InMemoryDispatcher Data Ctx World).
Implicit Types (h : EventHandlerFunc Data Ctx World) (k : TypeKey).
Implicit Types (event : iface Data) (ctx : Ctx) (w : World).

Lemma exec_call ctx event h w :
  exec (Matmaster.call ctx event h) w = exec (h ctx event) w.
Proof.
  unfold Matmaster.call, exec, mbind, M_bind. by destruct (h ctx event w).
Qed.

Lemma Subscribe_lookup_eq d event h :
  Matmaster.handlers (Matmaster.Subscribe d event h) !! reflect_TypeOf event =
    Some ((Matmaster.handlers d !!! reflect_TypeOf event) ++ [h]).
Proof. simpl. by rewrite lookup_insert_eq. Qed.

Lemma Subscribe_lookup_ne d event h k :
  k ≠ reflect_TypeOf event →
  Matmaster.handlers (Matmaster.Subscribe d event h) !! k =
    Matmaster.handlers d !! k.
Proof. intros Hk. simpl. by rewrite lookup_insert_ne. Qed.

Lemma Subscribe_lookup_total d event h k :
  Matmaster.handlers (Matmaster.Subscribe d event h) !!! k =
    (Matmaster.handlers d !!! k)
      ++ (if decide (reflect_TypeOf event = k) then [h] else []).
Proof.
  simpl. case_decide as Hk.
  - subst k. by rewrite lookup_total_insert_eq.
  - rewrite lookup_total_insert_ne by done. by rewrite (right_id_L [] (++)).
Qed.

Lemma DispatchCtx_invoke_in_order d ctx event w :
  Matmaster.DispatchCtx d ctx event w =
    (tt, Matmaster.invoke_in_order ctx event
           (Matmaster.handlers d !!! reflect_TypeOf event) w).
Proof.
  unfold Matmaster.DispatchCtx. rewrite lookup_total_alt.
  destruct (Matmaster.handlers d !! reflect_TypeOf event) as [hs|]; [|done].
  rewrite for_range_foldl. simpl. unfold Matmaster.invoke_in_order.
  f_equal. revert w. induction hs as [|h hs IH]; intros w; [done|].
  simpl. by rewrite exec_call, IH.
Qed.

Lemma invoke_in_order_app ctx event (hs1 hs2 : list (EventHandlerFunc Data Ctx World)) w :
  Matmaster.invoke_in_order ctx event (hs1 ++ hs2) w =
    Matmaster.invoke_in_order ctx event hs2
      (Matmaster.invoke_in_order ctx event hs1 w).
Proof. unfold Matmaster.invoke_in_order. by rewrite foldl_app. Qed.

Lemma invoke_in_order_cons ctx event h (hs : list (EventHandlerFunc Data Ctx World)) w :
  Matmaster.invoke_in_order ctx event (h :: hs) w =
    Matmaster.invoke_in_order ctx event hs (exec (h ctx event) w).
Proof. done. Qed.

Lemma SubscribeAll_lookup_total d subs event :
  Matmaster.handlers (Matmaster.SubscribeAll d subs) !!! reflect_TypeOf event =
    (Matmaster.handlers d !!! reflect_TypeOf event)
      ++ Matmaster.subscribed subs event.
Proof.
  revert d. induction subs as [|[e h] subs IH]; intros d.
  - unfold Matmaster.subscribed. simpl. by rewrite (right_id_L [] (++)).
  - change (Matmaster.SubscribeAll d ((e, h) :: subs))
      with (Matmaster.SubscribeAll (Matmaster.Subscribe d e h) subs).
    rewrite IH, Subscribe_lookup_total. unfold Matmaster.subscribed.
    rewrite filter_cons. simpl.
    case_decide; simpl; by rewrite <-?(assoc_L (++)).
Qed.

End MatmasterProperties.

Section ObservedProperties.
Context {Data Ctx World : Type}.

Lemma invoke_in_order_observed ctx event
    (nhs : list (string * EventHandlerFunc Data Ctx World)) w
    (tr : list (call Data Ctx)) :
  Matmaster.invoke_in_order ctx event (observed_handler <$> nhs) (w, tr) =
    (Matmaster.invoke_in_order ctx event nhs.*2 w,
     tr ++ ((λ nh, CallHandler nh.1 ctx event) <$> nhs)).
Proof.
  revert w tr. induction nhs as [|[n h] nhs IH]; intros w tr.
  - simpl. by rewrite (right_id_L [] (++)).
  - rewrite !fmap_cons, !invoke_in_order_cons. simpl.
    assert (exec (observed_handler (n, h) ctx event) (w, tr) =
            (exec (h ctx event) w, tr ++ [CallHandler n ctx event])) as ->.
    { unfold observed_handler, observe, exec. simpl.
      by destruct (h ctx event w). }
    rewrite IH. simpl. by rewrite <-(assoc_L (++)).
Qed.

Lemma observed_lookup_total
    (named : gmap TypeKey (list (string * EventHandlerFunc Data Ctx World))) k :
  Matmaster.handlers (observed_InMemoryDispatcher named) !!! k =
    observed_handler <$> (named !!! k).
Proof.
  unfold observed_InMemoryDispatcher. simpl.
  rewrite !lookup_total_alt, lookup_fmap. by destruct (named !! k).
Qed.
End ObservedProperties.

Section RegistryClaims.
Context {Data Ctx World : Type}.
Implicit Types (d : Matmaster.InMemoryDispatcher Data Ctx World).
Implicit Types (h : EventHandlerFunc Data Ctx World) (k : TypeKey).
Implicit Types (event : iface Data) (ctx : Ctx) (w : World).

(** C5. Subscriber fan-out order and silent no-op.  [DispatchCtx] has no
    result, so it cannot signal an error.  When the map has no list for
    the event's type, it leaves the world as it was: no handler runs.
    Otherwise it calls the handlers of that list with [(ctx, event)], one
    after the other in list order, each on the world its predecessor left.
    That list order is the order of subscription: after any run of
    [Subscribe] calls on a new dispatcher, the handlers called are those
    subscribed for the event's type, in the order they were subscribed.
    On observed subscribers the call trace grows by one call per
    subscriber, in that order, each with [(ctx, event)]. *)
Theorem DispatchCtx_fan_out_in_subscription_order d ctx event w :
  (Matmaster.handlers d !! reflect_TypeOf event = None →
     Matmaster.DispatchCtx d ctx event w = (tt, w)) ∧
  (∀ hs, Matmaster.handlers d !! reflect_TypeOf event = Some hs →
     Matmaster.DispatchCtx d ctx event w =
       (tt, Matmaster.invoke_in_order ctx event hs w)) ∧
  (∀ subs,
     Matmaster.DispatchCtx
       (Matmaster.SubscribeAll Matmaster.NewInMemoryDispatcher subs) ctx event w =
       (tt, Matmaster.invoke_in_order ctx event
              (Matmaster.subscribed subs event) w)) ∧
  (∀ (named : gmap TypeKey (list (string * EventHandlerFunc Data Ctx World)))
     (tr : list (call Data Ctx)),
     (Matmaster.DispatchCtx (observed_InMemoryDispatcher named) ctx event (w, tr)).2.2 =
       tr ++ ((λ nh, CallHandler nh.1 ctx event)
                <$> (named !!! reflect_TypeOf event))).
Proof.
  split_and!.
  - intros Hk. unfold Matmaster.DispatchCtx. by rewrite Hk.
  - intros hs Hk. rewrite DispatchCtx_invoke_in_order.
    by rewrite lookup_total_alt, Hk.
  - intros subs. rewrite DispatchCtx_invoke_in_order.
    rewrite SubscribeAll_lookup_total. simpl.
    by rewrite lookup_total_empty.
  - intros named tr.
    rewrite DispatchCtx_invoke_in_order, observed_lookup_total.
    by rewrite invoke_in_order_observed.
Qed.

(** C6. Fan-out failure isolation.  With H1 and, after it, H2 in the
    subscriber list of the event's type, [DispatchCtx] calls H2 with the
    same [(ctx, event)], on the world left by H1 and the subscribers
    between them, and goes on with the subscribers after H2 -- whatever H1
    returned, a non-nil error included: the results of a subscriber are
    dropped.  On observed subscribers the call of H2 is in the trace after
    the call of H1. *)
Theorem DispatchCtx_failure_isolation d ctx event hs1 h1 hs2 h2 hs3 w
    (n1 n2 : string) (tr : list (call Data Ctx)) :
  Matmaster.handlers d !! reflect_TypeOf event
    = Some (hs1 ++ h1 :: hs2 ++ h2 :: hs3) →
  let w1 := exec (h1 ctx event) (Matmaster.invoke_in_order ctx event hs1 w) in
  let w2 := Matmaster.invoke_in_order ctx event hs2 w1 in
  Matmaster.DispatchCtx d ctx event w =
    (tt, Matmaster.invoke_in_order ctx event hs3 (exec (h2 ctx event) w2)) ∧
  (∀ e, reflect_TypeOf e = reflect_TypeOf event →
     Matmaster.DispatchCtx
       (Matmaster.Subscribe (Matmaster.Subscribe d e h1) e h2) ctx event w =
       (tt, exec (h2 ctx event)
              (exec (h1 ctx event) (exec (Matmaster.DispatchCtx d ctx event) w)))) ∧
  (Matmaster.DispatchCtx
     (observed_InMemoryDispatcher
        {[ reflect_TypeOf event := [(n1, h1); (n2, h2)] ]}) ctx event (w, tr)).2.2 =
    tr ++ [CallHandler n1 ctx event; CallHandler n2 ctx event].
Proof.
  intros Hk w1 w2. split_and!.
  - rewrite DispatchCtx_invoke_in_order, lookup_total_alt, Hk. simpl.
    rewrite invoke_in_order_app, invoke_in_order_cons.
    by rewrite invoke_in_order_app, invoke_in_order_cons.
  - intros e He. rewrite !DispatchCtx_invoke_in_order.
    rewrite !Subscribe_lookup_total, He.
    rewrite !decide_True by done. rewrite !invoke_in_order_app.
    unfold exec at 3. by rewrite DispatchCtx_invoke_in_order.
  - rewrite DispatchCtx_invoke_in_order, observed_lookup_total.
    rewrite invoke_in_order_observed. simpl.
    by rewrite lookup_total_singleton_eq.
Qed.

(** C10. [Subscribe] has a frame property, in both dispatchers of the
    repository: after subscribing a handler under a key, the list of that
    key is the old list (empty if there was none) with the handler added at
    the end, and the list of every other key is what it was. *)
Theorem Subscribe_frame d event h
    (d' : ExampleTest.InMemoryDispatcher Data World) k'
    (h' : iface Data → M World unit) k :
  k ≠ reflect_TypeOf event → k ≠ k' →
  (Matmaster.handlers (Matmaster.Subscribe d event h) !! reflect_TypeOf event =
     Some (default [] (Matmaster.handlers d !! reflect_TypeOf event) ++ [h]) ∧
   Matmaster.handlers (Matmaster.Subscribe d event h) !! k =
     Matmaster.handlers d !! k) ∧
  (ExampleTest.handlers (ExampleTest.Subscribe d' k' h') !! k' =
     Some (default [] (ExampleTest.handlers d' !! k') ++ [h']) ∧
   ExampleTest.handlers (ExampleTest.Subscribe d' k' h') !! k =
     ExampleTest.handlers d' !! k).
Proof.
  intros Hk Hk'. split_and!.
  - by rewrite Subscribe_lookup_eq, lookup_total_alt.
  - by apply Subscribe_lookup_ne.
  - simpl. by rewrite lookup_insert_eq, lookup_total_alt.
  - simpl. by rewrite lookup_insert_ne.
Qed.
End RegistryClaims.

Lemma DispatchCtx_fan_out_in_subscription_order_witness :
  let d := Matmaster.SubscribeAll Matmaster.NewInMemoryDispatcher
             [(Sample.orderCreated, Sample.H1); (Sample.orderShipped, Sample.H3);
              (Sample.orderCreated, Sample.H2)] in
  (Matmaster.handlers d !! reflect_TypeOf Sample.orderCreated
     = Some [Sample.H1; Sample.H2] ∧
   Sample.log (Matmaster.DispatchCtx d "ctx" Sample.orderCreated Sample.w0).2 =
     ["H1(ctx,*simpleapp.OrderCreatedEvent)"; "H2(ctx,*simpleapp.OrderCreatedEvent)"]) ∧
  (Matmaster.handlers (Matmaster.NewInMemoryDispatcher (Data:=Sample.Data)
      (Ctx:=Sample.Ctx) (World:=Sample.world)) !! reflect_TypeOf Sample.orderShipped = None ∧
   Matmaster.DispatchCtx Matmaster.NewInMemoryDispatcher "ctx" Sample.orderShipped Sample.w0
     = (tt, Sample.w0)).
Proof.
  intros d.
  assert (H1 : Matmaster.handlers d !! reflect_TypeOf Sample.orderCreated
                 = Some [Sample.H1; Sample.H2]) by (vm_compute; reflexivity).
  assert (H2 : Matmaster.handlers (Matmaster.NewInMemoryDispatcher (Data:=Sample.Data)
                 (Ctx:=Sample.Ctx) (World:=Sample.world))
                 !! reflect_TypeOf Sample.orderShipped = None) by reflexivity.
  split; (split; [assumption|]).
  - exact (f_equal (λ x, Sample.log x.2)
             (proj1 (proj2 (DispatchCtx_fan_out_in_subscription_order
                              d "ctx" Sample.orderCreated Sample.w0)) _ H1)).
  - exact (proj1 (DispatchCtx_fan_out_in_subscription_order
                    Matmaster.NewInMemoryDispatcher "ctx" Sample.orderShipped
                    Sample.w0) H2).
Defined.

(** H1 fails, H2 is called all the same. *)
Lemma DispatchCtx_failure_isolation_witness :
  let d := Matmaster.Subscribe
             (Matmaster.Subscribe Matmaster.NewInMemoryDispatcher
                Sample.orderCreated Sample.H1)
             Sample.orderCreated Sample.H2 in
  Matmaster.handlers d !! reflect_TypeOf Sample.orderCreated
    = Some ([] ++ Sample.H1 :: [] ++ Sample.H2 :: []) ∧
  (Sample.H1 "ctx" Sample.orderCreated Sample.w0).1.2 = Some (mkError "H1 failed") ∧
  Sample.log (Matmaster.DispatchCtx d "ctx" Sample.orderCreated Sample.w0).2 =
    ["H1(ctx,*simpleapp.OrderCreatedEvent)"; "H2(ctx,*simpleapp.OrderCreatedEvent)"].
Proof.
  intros d.
  assert (H : Matmaster.handlers d !! reflect_TypeOf Sample.orderCreated
                = Some ([] ++ Sample.H1 :: [] ++ Sample.H2 :: []))
    by (vm_compute; reflexivity).
  split_and!; [exact H | reflexivity |].
  exact (f_equal (λ x, Sample.log x.2)
           (proj1 (DispatchCtx_failure_isolation d "ctx" Sample.orderCreated
                     [] Sample.H1 [] Sample.H2 [] Sample.w0 "H1" "H2" [] H))).
Defined.

Lemma Subscribe_frame_witness :
  let d := Matmaster.Subscribe Matmaster.NewInMemoryDispatcher
             Sample.orderCreated Sample.H1 in
  let d' := ExampleTest.Subscribe
              (ExampleTest.NewInMemoryDispatcher (Data:=Sample.Data) (World:=Sample.world))
              (Some (TPtr Sample.OrderCreatedEvent)) (Sample.notify "N1") in
  let k := Some (TPtr Sample.OrderShippedEvent) in
  k ≠ reflect_TypeOf Sample.orderCreated ∧
  k ≠ Some (TPtr Sample.OrderCreatedEvent) ∧
  Matmaster.handlers (Matmaster.Subscribe d Sample.orderCreated Sample.H2)
    !! reflect_TypeOf Sample.orderCreated = Some [Sample.H1; Sample.H2] ∧
  Matmaster.handlers (Matmaster.Subscribe d Sample.orderCreated Sample.H2) !! k = None ∧
  ExampleTest.handlers
    (ExampleTest.Subscribe d' (Some (TPtr Sample.OrderCreatedEvent)) (Sample.notify "N2"))
    !! Some (TPtr Sample.OrderCreatedEvent) = Some [Sample.notify "N1"; Sample.notify "N2"].
Proof.
  intros d d' k.
  assert (H1 : k ≠ reflect_TypeOf Sample.orderCreated) by (by vm_compute).
  assert (H2 : k ≠ Some (TPtr Sample.OrderCreatedEvent)) by (by vm_compute).
  pose proof (Subscribe_frame d Sample.orderCreated Sample.H2 d'
                (Some (TPtr Sample.OrderCreatedEvent)) (Sample.notify "N2") k H1 H2)
    as [[Ha Hb] [Hc _]].
  split_and!; [exact H1 | exact H2 | exact Ha | | exact Hc].
  exact (eq_trans Hb eq_refl).
Defined.

(** ** Event identifiers *)

Lemma unhex_hexdigit (v : byte) :
  unhex (hexdigit (N.shiftr (Byte.to_N v) 4)) (hexdigit (N.land (Byte.to_N v) 15))
    = Some v.
Proof. destruct v; vm_compute; reflexivity. Qed.

Lemma hex_EncodeToString_inj (l1 l2 : list byte) :
  hex_EncodeToString l1 = hex_EncodeToString l2 → l1 = l2.
Proof.
  revert l2. induction l1 as [|a l1 IH]; intros [|b l2]; simpl; try done.
  intros [= Hhi Hlo Hrest]. f_equal; [|by apply IH].
  pose proof (unhex_hexdigit a) as Ha. pose proof (unhex_hexdigit b) as Hb.
  rewrite Hhi, Hlo in Ha. congruence.
Qed.

Lemma hex_EncodeToString_nonempty (l : list byte) :
  l ≠ [] → hex_EncodeToString l ≠ "".
Proof. by destruct l. Qed.

Lemma length_slice_fill (buf src : list byte) :
  length (slice_fill buf src) = length buf.
Proof.
  unfold slice_fill. rewrite length_take, length_app, length_drop. lia.
Qed.

Lemma append_dash_nonempty (s1 s2 : string) : s1 +:+ "-" +:+ s2 ≠ "".
Proof. by destruct s1. Qed.

Section EventClaims.
Context {Data Ctx World time_Time : Type}.
Implicit Types (rt : Runtime World time_Time) (w : World).

Lemma generateEventID_unfold rt w :
  generateEventID rt w =
    let '((src, err), w0) := rand_Read rt 16 w in
    match err with
    | Some _ =>
        let '(t1, wa) := time_Now rt w0 in
        let '(t2, wb) := time_Now rt wa in
        (Time_Format rt t1 "20060102150405" +:+ "-"
           +:+ Time_Format rt t2 "000000", wb)
    | None => (hex_EncodeToString (slice_fill (replicate 16 x00) src), w0)
    end.
Proof.
  unfold generateEventID, mbind, M_bind. simpl.
  destruct (rand_Read rt 16 w) as [[src [err|]] w0]; [|done].
  destruct (time_Now rt w0) as [t1 wa]. by destruct (time_Now rt wa).
Qed.

Lemma NewBaseEvent_unfold rt eventType aggregateID version w :
  NewBaseEvent rt eventType aggregateID version w =
    let '(id, w1) := generateEventID rt w in
    let '(now, w2) := time_Now rt w1 in
    ({| ID := id; Type_ := eventType; Time := Time_UTC rt now;
        Aggregate := aggregateID; Version := version |}, w2).
Proof.
  unfold NewBaseEvent, mbind, M_bind.
  destruct (generateEventID rt w) as [id w1]. by destruct (time_Now rt w1).
Qed.

Lemma generateEventID_nonempty rt w : (generateEventID rt w).1 ≠ "".
Proof.
  rewrite generateEventID_unfold.
  destruct (rand_Read rt 16 w) as [[src [err|]] w0].
  - destruct (time_Now rt w0) as [t1 wa], (time_Now rt wa) as [t2 wb].
    apply append_dash_nonempty.
  - simpl. apply hex_EncodeToString_nonempty. intros Hnil.
    apply (f_equal length) in Hnil. rewrite length_slice_fill in Hnil. done.
Qed.

(** C8. Event construction never fails.  [NewBaseEvent] returns an event
    for every input (it has no error result); the event carries the given
    type, aggregate id and version, and as its time the clock reading taken
    after the id was made, turned to UTC.  When the randomness source
    reports an error the id is built from two further clock readings alone
    (the first in the layout 20060102150405, a dash, the second in the
    layout 000000), and construction goes on as in the other case. *)
Theorem NewBaseEvent_never_fails rt eventType aggregateID version w :
  let r := NewBaseEvent rt eventType aggregateID version w in
  let g := generateEventID rt w in
  let now := time_Now rt g.2 in
  (EventType r.1 = eventType ∧ AggregateID r.1 = aggregateID ∧
   EventVersion r.1 = version ∧ EventTime r.1 = Time_UTC rt now.1 ∧
   EventID r.1 = g.1 ∧ r.2 = now.2) ∧
  (∀ src err w0, rand_Read rt 16 w = ((src, Some err), w0) →
     let t1 := time_Now rt w0 in
     let t2 := time_Now rt t1.2 in
     g = (Time_Format rt t1.1 "20060102150405" +:+ "-"
            +:+ Time_Format rt t2.1 "000000", t2.2)) ∧
  (∀ src w0, rand_Read rt 16 w = ((src, None), w0) →
     g = (hex_EncodeToString (slice_fill (replicate 16 x00) src), w0)).
Proof.
  intros r g now. subst r g now. rewrite NewBaseEvent_unfold.
  pose proof (generateEventID_unfold rt w) as Hid.
  destruct (generateEventID rt w) as [id w1]. simpl.
  destruct (time_Now rt w1) as [now w2]. split_and!; try done.
  - intros src err w0 Hrand. rewrite Hrand in Hid. simpl.
    destruct (time_Now rt w0) as [t1 wa]. simpl.
    by destruct (time_Now rt wa) as [t2 wb].
  - intros src w0 Hrand. by rewrite Hrand in Hid.
Qed.

(** C9, as amended.  The id of every constructed event is a non-empty
    string.  When the randomness source answers without error for two
    constructions, their ids are the hex encodings of the 16 bytes read, so
    the ids are equal exactly when the bytes read are equal: the ids of two
    emissions differ as far as the randomness source delivers different
    bytes. *)
Theorem EventID_nonempty_and_as_unique_as_randomness
    rt type1 aggregate1 version1 type2 aggregate2 version2 w :
  let r1 := NewBaseEvent rt type1 aggregate1 version1 w in
  let r2 := NewBaseEvent rt type2 aggregate2 version2 r1.2 in
  EventID r1.1 ≠ "" ∧ EventID r2.1 ≠ "" ∧
  (∀ src1 src2 wa wb,
     rand_Read rt 16 w = ((src1, None), wa) →
     rand_Read rt 16 r1.2 = ((src2, None), wb) →
     EventID r1.1 = hex_EncodeToString (slice_fill (replicate 16 x00) src1) ∧
     EventID r2.1 = hex_EncodeToString (slice_fill (replicate 16 x00) src2) ∧
     (EventID r1.1 = EventID r2.1 ↔
        slice_fill (replicate 16 x00) src1 = slice_fill (replicate 16 x00) src2)).
Proof.
  intros r1 r2. subst r1 r2. rewrite NewBaseEvent_unfold.
  pose proof (generateEventID_nonempty rt w) as Hne1.
  pose proof (generateEventID_unfold rt w) as Hid1.
  destruct (generateEventID rt w) as [id1 wi1].
  destruct (time_Now rt wi1) as [now1 w1]. simpl.
  rewrite NewBaseEvent_unfold.
  pose proof (generateEventID_nonempty rt w1) as Hne2.
  pose proof (generateEventID_unfold rt w1) as Hid2.
  destruct (generateEventID rt w1) as [id2 wi2].
  destruct (time_Now rt wi2) as [now2 w2]. simpl in *.
  split_and!; [done..|].
  intros src1 src2 wa wb Hr1 Hr2. rewrite Hr1 in Hid1. rewrite Hr2 in Hid2.
  injection Hid1 as -> _. injection Hid2 as -> _.
  split_and!; [done..|]. split; [apply hex_EncodeToString_inj | by intros ->].
Qed.

(** C4. Log-then-dispatch ordering with non-fatal log failure.  [Emit]
    calls the log writer's [Write] on the event, reports an error of it
    through [log.Printf], and then calls the dispatcher on the world so
    reached, whether [Write] returned an error or not; with the in-memory
    dispatcher of the examples, every subscriber therefore runs after
    [Write] has returned.  On an observed emitter the trace grows by one
    [Write] of the event, the report if there was an error, and one
    [Dispatch] with [(ctx, event)], in this order. *)
Theorem Emit_logs_then_dispatches (log_Printf : string → M World unit)
    (e : EventEmitter Data Ctx World) (ctx : Ctx) (event : iface Data) w
    (d : ExampleTest.InMemoryDispatcher Data World)
    (tr : list (call Data Ctx)) :
  let written := Write (LogWriter e) event w in
  let report :=
    match written.1 with
    | Some err => ["audit log failed: " +:+ Error err]
    | None => []
    end in
  let w2 := foldl (λ w msg, exec (log_Printf msg) w) written.2 report in
  Emit log_Printf e ctx event w = Dispatch (Dispatcher' e) ctx event w2 ∧
  Emit log_Printf (NewEventEmitter (LogWriter e) (ExampleTest.as_Dispatcher d))
    ctx event w =
    (tt, foldl (λ w handler, exec (handler event) w) w2
           (ExampleTest.handlers d !!! reflect_TypeOf event)) ∧
  (Emit (observed_Printf log_Printf) (observed_EventEmitter e) ctx event (w, tr)).2.2 =
    tr ++ [CallWrite event] ++ (CallPrintf <$> report) ++ [CallDispatch ctx event].
Proof.
  intros written report w2. subst written report w2.
  assert (Hemit : ∀ (e' : EventEmitter Data Ctx World),
    Emit log_Printf e' ctx event w =
      Dispatch (Dispatcher' e') ctx event
        (foldl (λ w msg, exec (log_Printf msg) w) (Write (LogWriter e') event w).2
           match (Write (LogWriter e') event w).1 with
           | Some err => ["audit log failed: " +:+ Error err]
           | None => []
           end)).
  { intros e'. unfold Emit, mbind, M_bind, exec.
    destruct (Write (LogWriter e') event w) as [[err|] w1]; simpl; [|done].
    by destruct (log_Printf _ w1). }
  split_and!.
  - apply Hemit.
  - rewrite Hemit. simpl. unfold ExampleTest.Dispatch. rewrite lookup_total_alt.
    destruct (ExampleTest.handlers d !! reflect_TypeOf event) as [hs|]; [|done].
    apply for_range_foldl.
  - unfold Emit, observed_EventEmitter, observed_Printf, observe, mbind, M_bind.
    simpl. destruct (Write (LogWriter e) event w) as [[err|] w1]; simpl.
    + destruct (log_Printf _ w1) as [[] w2].
      destruct (Dispatch (Dispatcher' e) ctx event w2). simpl.
      by rewrite <-!(assoc_L (++)).
    + destruct (Dispatch (Dispatcher' e) ctx event w1). simpl.
      by rewrite <-!(assoc_L (++)).
Qed.
End EventClaims.

(** The randomness source fails: the id comes from the clock, and the event
    is built all the same. *)
Lemma NewBaseEvent_never_fails_witness :
  let r := NewBaseEvent Sample.runtime "OrderCreated" "order-1" 1 Sample.w0 in
  rand_Read Sample.runtime 16 Sample.w0 =
    (([], fmt_Errorf "entropy source unavailable"), Sample.w0) ∧
  EventID r.1 = "20060102150405@1700000000-000000@1700000001" ∧
  EventType r.1 = "OrderCreated" ∧ AggregateID r.1 = "order-1" ∧
  EventVersion r.1 = 1%Z ∧ EventTime r.1 = 1700000002%Z.
Proof.
  intros r.
  assert (Hr : rand_Read Sample.runtime 16 Sample.w0 =
                 (([], fmt_Errorf "entropy source unavailable"), Sample.w0))
    by reflexivity.
  destruct (NewBaseEvent_never_fails Sample.runtime "OrderCreated" "order-1" 1
              Sample.w0) as [(Ht & Ha & Hv & Htime & Hid & _) [Hfallback _]].
  specialize (Hfallback _ _ _ Hr).
  split_and!; [exact Hr | | exact Ht | exact Ha | exact Hv | exact Htime].
  exact (eq_trans Hid (f_equal fst Hfallback)).
Defined.

(** Two constructions on different random bytes get different ids. *)
Lemma EventID_nonempty_and_as_unique_as_randomness_witness :
  let r1 := NewBaseEvent Sample.runtime "OrderCreated" "order-1" 1 Sample.w_distinct in
  let r2 := NewBaseEvent Sample.runtime "OrderCreated" "order-1" 1 r1.2 in
  (rand_Read Sample.runtime 16 Sample.w_distinct).1 = (Sample.zeros, None) ∧
  (rand_Read Sample.runtime 16 r1.2).1 = (Sample.ones, None) ∧
  EventID r1.1 = "00000000000000000000000000000000" ∧
  EventID r2.1 = "ffffffffffffffffffffffffffffffff" ∧
  EventID r1.1 ≠ EventID r2.1.
Proof.
  intros r1 r2.
  destruct (EventID_nonempty_and_as_unique_as_randomness Sample.runtime
              "OrderCreated" "order-1" 1 "OrderCreated" "order-1" 1
              Sample.w_distinct) as (_ & _ & H).
  destruct (H Sample.zeros Sample.ones _ _ eq_refl eq_refl) as (H1 & H2 & Hiff).
  split_and!; [reflexivity | reflexivity | exact H1 | exact H2 |].
  intros Heq. apply Hiff in Heq. vm_compute in Heq. discriminate Heq.
Defined.

(** C9, as stated, fails.  The randomness source answers twice without
    error, with the same 16 bytes; the two events get the same id. *)
Lemma EventID_collision :
  let r1 := NewBaseEvent Sample.runtime "OrderCreated" "order-1" 1 Sample.w_repeating in
  let r2 := NewBaseEvent Sample.runtime "OrderCreated" "order-1" 1 r1.2 in
  (rand_Read Sample.runtime 16 Sample.w_repeating).1 = (Sample.zeros, None) ∧
  (rand_Read Sample.runtime 16 r1.2).1 = (Sample.zeros, None) ∧
  EventID r1.1 = "00000000000000000000000000000000" ∧
  ¬ (EventID r1.1 ≠ EventID r2.1).
Proof.
  intros r1 r2. split_and!; [reflexivity..|]. intros Hne. by apply Hne.
Qed.

(** The log writer fails; the failure is reported and the subscribers of the
    event run after it. *)
Lemma Emit_logs_then_dispatches_witness :
  let d := ExampleTest.Subscribe
             (ExampleTest.Subscribe ExampleTest.NewInMemoryDispatcher
                (Some (TPtr Sample.OrderCreatedEvent)) (Sample.notify "N1"))
             (Some (TPtr Sample.OrderCreatedEvent)) (Sample.notify "N2") in
  let e := NewEventEmitter Sample.failingWriter
             (ExampleTest.as_Dispatcher (Ctx:=Sample.Ctx) d) in
  Sample.log (Emit Sample.log_Printf e "ctx" Sample.orderCreated Sample.w0).2 =
    ["write"; "audit log failed: disk full";
     "N1(*simpleapp.OrderCreatedEvent)"; "N2(*simpleapp.OrderCreatedEvent)"] ∧
  (Emit (observed_Printf Sample.log_Printf) (observed_EventEmitter e) "ctx"
     Sample.orderCreated (Sample.w0, [])).2.2 =
    [CallWrite Sample.orderCreated; CallPrintf "audit log failed: disk full";
     CallDispatch "ctx" Sample.orderCreated].
Proof.
  intros d e.
  destruct (Emit_logs_then_dispatches Sample.log_Printf e "ctx"
              Sample.orderCreated Sample.w0 d []) as (_ & Hd & Hobs).
  split.
  - exact (f_equal (λ x, Sample.log x.2) Hd).
  - exact Hobs.
Defined.

(** * Further properties *)

(** ** The router *)

Section RouterExtras.
Context {Data Ctx World : Type}.
Implicit Types (a : App Data Ctx World) (m : AppModule Data Ctx World).
Implicit Types (ms : list (AppModule Data Ctx World)).
Implicit Types (h : HandlerFunc Data Ctx World) (k : TypeKey).

Lemma NewApp_lookup_None ms k :
  handlers (NewApp ms) !! k = None ↔ Forall (λ m, Handlers m !! k = None) ms.
Proof.
  induction ms as [|m ms IH] using rev_ind.
  - split; [constructor | done].
  - rewrite NewApp_lookup_snoc, Forall_app, Forall_singleton, <-IH.
    destruct (Handlers m !! k); [split; [done | by intros [_ ?]] | tauto].
Qed.

Lemma NewApp_lookup_Some ms k h :
  handlers (NewApp ms) !! k = Some h → ∃ m, m ∈ ms ∧ Handlers m !! k = Some h.
Proof.
  induction ms as [|m ms IH] using rev_ind; [done|].
  rewrite NewApp_lookup_snoc. destruct (Handlers m !! k) as [h'|] eqn:Hm.
  - intros [= ->]. exists m. split; [set_solver | done].
  - intros [m' [Hin Hm']]%IH. exists m'. split; [set_solver | done].
Qed.

(** X1. The router has a handler for a key exactly when some module
    exposes the key, and the handler it has is one a module exposes for it;
    a command whose type no module exposes gets the unregistered-command
    error. *)
Theorem NewApp_registers_what_modules_expose ms k :
  (is_Some (handlers (NewApp ms) !! k) ↔
     ∃ m, m ∈ ms ∧ is_Some (Handlers m !! k)) ∧
  (∀ h, handlers (NewApp ms) !! k = Some h →
     ∃ m, m ∈ ms ∧ Handlers m !! k = Some h) ∧
  (∀ ctx cmd w, reflect_TypeOf cmd = k →
     (∀ m, m ∈ ms → Handlers m !! k = None) →
     Handle (NewApp ms) ctx cmd w =
       ((None, Some (mkError ("no handler for command type: " +:+ fmt_T cmd))), w)).
Proof.
  split_and!.
  - split.
    + intros [h [m [Hin Hm]]%NewApp_lookup_Some]. exists m. by rewrite Hm.
    + intros [m [Hin [h Hm]]].
      destruct (handlers (NewApp ms) !! k) eqn:Hk; [done|].
      rewrite NewApp_lookup_None, Forall_forall in Hk.
      specialize (Hk m Hin). congruence.
  - apply NewApp_lookup_Some.
  - intros ctx cmd w <- Hnone. apply Handle_None, NewApp_lookup_None.
    by apply Forall_forall.
Qed.

Lemma NewApp_app ms1 ms2 :
  handlers (NewApp (ms1 ++ ms2)) = handlers (NewApp ms2) ∪ handlers (NewApp ms1).
Proof.
  induction ms2 as [|m ms2 IH] using rev_ind.
  - rewrite (right_id_L [] (++)). simpl. by rewrite (left_id_L ∅ (∪)).
  - rewrite (assoc_L (++)), !NewApp_snoc, IH. by rewrite (assoc_L (∪)).
Qed.

(** X2. Building from a concatenated module list lays the router of the
    second part over the router of the first; modules that expose no handler
    can be left out. *)
Theorem NewApp_of_concatenation ms1 ms2 m :
  handlers (NewApp (ms1 ++ ms2)) = handlers (NewApp ms2) ∪ handlers (NewApp ms1) ∧
  (Handlers m = ∅ →
     handlers (NewApp (ms1 ++ m :: ms2)) = handlers (NewApp (ms1 ++ ms2))).
Proof.
  split; [apply NewApp_app|]. intros Hm.
  rewrite !NewApp_app. f_equal.
  change (m :: ms2) with ([m] ++ ms2). rewrite NewApp_app.
  change [m] with ([] ++ [m]). rewrite NewApp_snoc, Hm. simpl.
  by rewrite (left_id_L ∅ (∪)), (right_id_L ∅ (∪)).
Qed.

(** X3. A direct registration [app.handlers[typ] = h] changes dispatch for
    the commands of type [typ] only, which now reach [h]. *)
Theorem Handle_after_assign a k h (ctx : Ctx) (cmd : iface Data) :
  Handle (assign a k h) ctx cmd =
    if decide (reflect_TypeOf cmd = k) then h ctx cmd else Handle a ctx cmd.
Proof.
  unfold Handle. simpl. case_decide as Hk.
  - subst k. by rewrite lookup_insert_eq.
  - by rewrite lookup_insert_ne.
Qed.

Lemma modules_agree_lookup ms k h m :
  modules_agree ms → m ∈ ms → Handlers m !! k = Some h →
  handlers (NewApp ms) !! k = Some h.
Proof.
  intros Hagree Hin Hm.
  destruct (handlers (NewApp ms) !! k) as [h'|] eqn:Hk.
  - apply NewApp_lookup_Some in Hk as [m' [Hin' Hm']].
    f_equal. by apply (Hagree m' m k).
  - rewrite NewApp_lookup_None, Forall_forall in Hk.
    specialize (Hk m Hin). congruence.
Qed.

Lemma modules_agree_Permutation ms ms' :
  ms ≡ₚ ms' → modules_agree ms → modules_agree ms'.
Proof.
  intros Hperm Hagree m1 m2 k h1 h2 Hin1 Hin2.
  rewrite <-Hperm in Hin1, Hin2. by apply Hagree.
Qed.

(** X4. When no two modules expose different handlers for one key (for
    instance when their key sets are disjoint), the router does not depend on
    the order in which the modules are given. *)
Theorem NewApp_order_irrelevant_without_conflicts ms ms' :
  modules_agree ms → ms ≡ₚ ms' →
  handlers (NewApp ms) = handlers (NewApp ms').
Proof.
  intros Hagree Hperm. apply map_eq. intros k.
  destruct (handlers (NewApp ms) !! k) as [h|] eqn:Hk.
  - apply NewApp_lookup_Some in Hk as [m [Hin Hm]]. symmetry.
    apply (modules_agree_lookup ms' k h m); [|by rewrite <-Hperm|done].
    by apply (modules_agree_Permutation ms).
  - symmetry. rewrite NewApp_lookup_None in Hk |- *. by rewrite <-Hperm.
Qed.

Lemma modules_disjoint_snoc ms m :
  modules_disjoint (ms ++ [m]) →
  modules_disjoint ms ∧ Handlers m ##ₘ handlers (NewApp ms).
Proof.
  intros Hdisj. split.
  - intros i j m1 m2 Hi Hj Hij.
    apply (Hdisj i j); [by apply lookup_app_l_Some..|done].
  - apply map_disjoint_spec. intros k h h' Hm Hk.
    apply NewApp_lookup_Some in Hk as [m' [Hin Hm']].
    apply list_elem_of_lookup in Hin as [i Hi].
    assert (Hlt : i < length ms) by (by eapply lookup_lt_Some).
    assert (Hd : Handlers m' ##ₘ Handlers m).
    { apply (Hdisj i (length ms)); [by apply lookup_app_l_Some| |lia].
      by rewrite lookup_app_r, Nat.sub_diag by lia. }
    rewrite map_disjoint_spec in Hd. by apply (Hd k h' h).
Qed.

Lemma size_union_le (hs1 hs2 : gmap TypeKey (HandlerFunc Data Ctx World)) :
  size (hs1 ∪ hs2) ≤ size hs1 + size hs2.
Proof.
  induction hs1 as [|k h hs1 Hk _ IH] using map_first_key_ind.
  - rewrite (left_id_L ∅ (∪)), map_size_empty. lia.
  - rewrite <-insert_union_l, (map_size_insert_None _ _ hs1) by done.
    rewrite map_size_insert. destruct ((hs1 ∪ hs2) !! k); simpl; lia.
Qed.

(** X5. The router never has more entries than the modules expose in
    total, and when no key is exposed by two modules it has exactly as many
    (the handler counts the package's tests expect). *)
Theorem NewApp_size ms :
  size (handlers (NewApp ms)) ≤ sum_list_with (λ m, size (Handlers m)) ms ∧
  (modules_disjoint ms →
     size (handlers (NewApp ms)) = sum_list_with (λ m, size (Handlers m)) ms).
Proof.
  split.
  - induction ms as [|m ms IH] using rev_ind; [done|].
    rewrite NewApp_snoc, sum_list_with_app. simpl.
    pose proof (size_union_le (Handlers m) (handlers (NewApp ms))). lia.
  - induction ms as [|m ms IH] using rev_ind; [done|].
    intros [Hms Hm]%modules_disjoint_snoc.
    rewrite NewApp_snoc, sum_list_with_app. simpl.
    rewrite map_size_disj_union by done. rewrite IH by done. lia.
Qed.

(** X6. A nil command is routed under the nil type: without a handler
    registered under the nil [reflect.Type] it gets the unregistered-command
    error, whose message then ends in [<nil>]; with one, it reaches that
    handler.  A router built from no modules rejects every command. *)
Theorem Handle_nil_command a (ctx : Ctx) (w : World) :
  (handlers a !! None = None →
     Handle a ctx None w =
       ((None, Some (mkError "no handler for command type: <nil>")), w)) ∧
  (∀ h, handlers a !! None = Some h → Handle a ctx None = h ctx None) ∧
  (∀ cmd : iface Data, Handle (NewApp []) ctx cmd w =
     ((None, Some (mkError ("no handler for command type: " +:+ fmt_T cmd))), w)).
Proof.
  split_and!.
  - intros Hnil. by rewrite Handle_None.
  - intros h Hnil. by apply Handle_Some.
  - intros cmd. by apply Handle_None.
Qed.
End RouterExtras.

Lemma sample_modules_agree : modules_agree [Sample.UserModule; Fixtures.AdminModule].
Proof.
  assert (Hcross : ∀ k h1 h2,
    Handlers Sample.UserModule !! k = Some h1 →
    Handlers Fixtures.AdminModule !! k = Some h2 → h1 = h2).
  { intros k h1 h2 Hu Ha. simpl in Ha.
    apply lookup_singleton_Some in Ha as [<- _]. vm_compute in Hu. discriminate Hu. }
  intros m1 m2 k h1 h2 Hin1 Hin2 H1 H2.
  apply elem_of_cons in Hin1 as [->|Hin1]; apply elem_of_cons in Hin2 as [->|Hin2];
    try apply list_elem_of_singleton in Hin1 as ->;
    try apply list_elem_of_singleton in Hin2 as ->.
  - congruence.
  - by apply (Hcross k).
  - symmetry. by apply (Hcross k).
  - congruence.
Qed.

Lemma sample_modules_disjoint :
  modules_disjoint [Sample.UserModule; Fixtures.AdminModule].
Proof.
  assert (Hd : Handlers Sample.UserModule ##ₘ Handlers Fixtures.AdminModule).
  { apply map_disjoint_spec. intros k h1 h2 Hu Ha. simpl in Ha.
    apply lookup_singleton_Some in Ha as [<- _]. vm_compute in Hu. discriminate Hu. }
  intros [|[|i]] [|[|j]] m1 m2 Hi Hj Hij; simplify_eq/=; done.
Qed.

Lemma NewApp_registers_what_modules_expose_witness :
  let ms := [Sample.UserModule; Fixtures.AdminModule] in
  let k := Some Sample.UnregisteredCommand in
  reflect_TypeOf (Some Sample.unregistered) = k ∧
  (∀ m, m ∈ ms → Handlers m !! k = None) ∧
  Handle (NewApp ms) "ctx" (Some Sample.unregistered) Sample.w0 =
    ((None, Some (mkError "no handler for command type: gocmdevt.UnregisteredCommand")),
     Sample.w0) ∧
  is_Some (handlers (NewApp ms) !! Some (TPtr Fixtures.UpdateUserCommand)).
Proof.
  intros ms k.
  assert (Hk : reflect_TypeOf (Some Sample.unregistered) = k) by reflexivity.
  assert (Hnone : ∀ m, m ∈ ms → Handlers m !! k = None).
  { intros m Hin. apply elem_of_cons in Hin as [->|Hin];
      [|apply list_elem_of_singleton in Hin as ->]; vm_compute; reflexivity. }
  split_and!; [exact Hk | exact Hnone | |].
  - exact (proj2 (proj2 (NewApp_registers_what_modules_expose ms k))
             "ctx" (Some Sample.unregistered) Sample.w0 Hk Hnone).
  - apply (proj1 (NewApp_registers_what_modules_expose ms
                    (Some (TPtr Fixtures.UpdateUserCommand)))).
    exists Fixtures.AdminModule. split; [set_solver | by eexists].
Defined.

Lemma NewApp_of_concatenation_witness :
  Handlers Sample.EmptyModule = ∅ ∧
  handlers (NewApp ([Sample.UserModule] ++ Sample.EmptyModule :: [Fixtures.AdminModule])) =
    handlers (NewApp ([Sample.UserModule] ++ [Fixtures.AdminModule])).
Proof.
  split; [reflexivity|].
  exact (proj2 (NewApp_of_concatenation [Sample.UserModule] [Fixtures.AdminModule]
                  Sample.EmptyModule) eq_refl).
Defined.

Lemma NewApp_order_irrelevant_without_conflicts_witness :
  modules_agree [Sample.UserModule; Fixtures.AdminModule] ∧
  [Sample.UserModule; Fixtures.AdminModule] ≡ₚ [Fixtures.AdminModule; Sample.UserModule] ∧
  handlers (NewApp [Sample.UserModule; Fixtures.AdminModule]) =
    handlers (NewApp [Fixtures.AdminModule; Sample.UserModule]).
Proof.
  assert (Hperm : [Sample.UserModule; Fixtures.AdminModule]
                    ≡ₚ [Fixtures.AdminModule; Sample.UserModule])
    by apply Permutation_swap.
  split_and!; [exact sample_modules_agree | exact Hperm |].
  exact (NewApp_order_irrelevant_without_conflicts _ _ sample_modules_agree Hperm).
Defined.

Lemma NewApp_size_witness :
  modules_disjoint [Sample.UserModule; Fixtures.AdminModule] ∧
  size (handlers (NewApp [Sample.UserModule; Fixtures.AdminModule])) = 3 ∧
  size (handlers (NewApp [Sample.UserModule; Sample.OverrideModule])) ≤ 3.
Proof.
  split_and!; [exact sample_modules_disjoint | |].
  - exact (proj2 (NewApp_size [Sample.UserModule; Fixtures.AdminModule])
             sample_modules_disjoint).
  - exact (proj1 (NewApp_size [Sample.UserModule; Sample.OverrideModule])).
Defined.

Lemma Handle_nil_command_witness :
  handlers (NewApp [Sample.UserModule]) !! None = None ∧
  Handle (NewApp [Sample.UserModule]) "ctx" None Sample.w0 =
    ((None, Some (mkError "no handler for command type: <nil>")), Sample.w0).
Proof.
  assert (H : handlers (NewApp [Sample.UserModule]) !! None = None)
    by (vm_compute; reflexivity).
  split; [exact H|].
  exact (proj1 (Handle_nil_command (NewApp [Sample.UserModule]) "ctx" Sample.w0) H).
Defined.

(** ** The subscription registries *)

Section RegistryExtras.
Context {Data Ctx World : Type}.
Implicit Types (d : Matmaster.InMemoryDispatcher Data Ctx World).
Implicit Types (h : EventHandlerFunc Data Ctx World) (k : TypeKey).
Implicit Types (event : iface Data) (ctx : Ctx) (w : World).

(** X7. Subscriptions only add: after any further run of [Subscribe] calls,
    dispatch first does what it did before and then calls the handlers newly
    subscribed for the event's type, in the order they were subscribed; a
    handler subscribed twice is called twice. *)
Theorem DispatchCtx_after_more_subscriptions d subs ctx event w :
  Matmaster.DispatchCtx (Matmaster.SubscribeAll d subs) ctx event w =
    (tt, Matmaster.invoke_in_order ctx event (Matmaster.subscribed subs event)
           (exec (Matmaster.DispatchCtx d ctx event) w)).
Proof.
  rewrite DispatchCtx_invoke_in_order, SubscribeAll_lookup_total.
  rewrite invoke_in_order_app. unfold exec at 1.
  by rewrite DispatchCtx_invoke_in_order.
Qed.

(** X8. [Subscribe] looks at the type of the event it is given and at
    nothing else of it, and subscriptions for events of different types can
    be made in either order. *)
Theorem Subscribe_uses_the_type_only d e1 e2 h1 h2 :
  (reflect_TypeOf e1 = reflect_TypeOf e2 →
     Matmaster.Subscribe d e1 h1 = Matmaster.Subscribe d e2 h1) ∧
  (reflect_TypeOf e1 ≠ reflect_TypeOf e2 →
     Matmaster.Subscribe (Matmaster.Subscribe d e1 h1) e2 h2 =
       Matmaster.Subscribe (Matmaster.Subscribe d e2 h2) e1 h1).
Proof.
  split.
  - intros He. unfold Matmaster.Subscribe. by rewrite He.
  - intros Hne. unfold Matmaster.Subscribe. simpl. f_equal.
    rewrite !lookup_total_insert_ne by done. by apply insert_insert_ne.
Qed.

(** X9. [Dispatch] is [DispatchCtx] with the background context: after any
    run of subscriptions on a new dispatcher it calls the handlers subscribed
    for the event's type, in subscription order, with
    [(context.Background(), event)]. *)
Theorem Dispatch_uses_the_background_context (context_Background : Ctx) d subs event w :
  Matmaster.Dispatch context_Background d event =
    Matmaster.DispatchCtx d context_Background event ∧
  Matmaster.Dispatch context_Background
    (Matmaster.SubscribeAll Matmaster.NewInMemoryDispatcher subs) event w =
    (tt, Matmaster.invoke_in_order context_Background event
           (Matmaster.subscribed subs event) w).
Proof.
  split; [done|].
  change (Matmaster.Dispatch context_Background ?d' event)
    with (Matmaster.DispatchCtx d' context_Background event).
  by rewrite DispatchCtx_after_more_subscriptions.
Qed.
End RegistryExtras.

Section ExampleTestExtras.
Context {Data Ctx World : Type}.
Implicit Types (d : ExampleTest.InMemoryDispatcher Data World).
Implicit Types (h : iface Data → M World unit) (k : TypeKey).
Implicit Types (event : iface Data) (ctx : Ctx) (w : World).

Lemma ExampleTest_Dispatch_foldl d ctx event w :
  ExampleTest.Dispatch d ctx event w =
    (tt, foldl (λ w h, exec (h event) w) w
           (ExampleTest.handlers d !!! reflect_TypeOf event)).
Proof.
  unfold ExampleTest.Dispatch. rewrite lookup_total_alt.
  destruct (ExampleTest.handlers d !! reflect_TypeOf event) as [hs|]; [|done].
  apply for_range_foldl.
Qed.

Lemma ExampleTest_SubscribeAll_lookup_total d subs event :
  ExampleTest.handlers (ExampleTest_SubscribeAll d subs) !!! reflect_TypeOf event =
    (ExampleTest.handlers d !!! reflect_TypeOf event)
      ++ ExampleTest_subscribed subs event.
Proof.
  revert d. induction subs as [|[k h] subs IH]; intros d.
  - unfold ExampleTest_subscribed. simpl. by rewrite (right_id_L [] (++)).
  - change (ExampleTest_SubscribeAll d ((k, h) :: subs))
      with (ExampleTest_SubscribeAll (ExampleTest.Subscribe d k h) subs).
    rewrite IH. unfold ExampleTest_subscribed. rewrite filter_cons. simpl.
    case_decide as Hk.
    + subst k. rewrite lookup_total_insert_eq. simpl.
      by rewrite <-(assoc_L (++)).
    + by rewrite lookup_total_insert_ne.
Qed.

(** X10. The dispatcher of [example_test.go]: dispatch on an event whose
    type has no subscribers does nothing; after any run of subscriptions,
    dispatch first does what it did before and then calls the handlers newly
    subscribed under the event's type, in subscription order, each with the
    event alone -- the context given to [Dispatch] plays no part. *)
Theorem ExampleTest_Dispatch_fan_out d subs ctx ctx' event w :
  (ExampleTest.handlers d !! reflect_TypeOf event = None →
     ExampleTest.Dispatch d ctx event w = (tt, w)) ∧
  ExampleTest.Dispatch (ExampleTest_SubscribeAll d subs) ctx event w =
    (tt, foldl (λ w h, exec (h event) w)
           (exec (ExampleTest.Dispatch d ctx event) w)
           (ExampleTest_subscribed subs event)) ∧
  ExampleTest.Dispatch d ctx event = ExampleTest.Dispatch d ctx' event.
Proof.
  split_and!.
  - intros Hk. unfold ExampleTest.Dispatch. by rewrite Hk.
  - rewrite ExampleTest_Dispatch_foldl, ExampleTest_SubscribeAll_lookup_total.
    rewrite foldl_app. unfold exec.
    by rewrite (ExampleTest_Dispatch_foldl d).
  - done.
Qed.
End ExampleTestExtras.

Lemma Subscribe_uses_the_type_only_witness :
  let d := Matmaster.NewInMemoryDispatcher
             (Data:=Sample.Data) (Ctx:=Sample.Ctx) (World:=Sample.world) in
  reflect_TypeOf Sample.orderCreated = reflect_TypeOf Fixtures.orderCreated2 ∧
  Matmaster.Subscribe d Sample.orderCreated Sample.H1 =
    Matmaster.Subscribe d Fixtures.orderCreated2 Sample.H1 ∧
  reflect_TypeOf Sample.orderCreated ≠ reflect_TypeOf Sample.orderShipped ∧
  Matmaster.Subscribe (Matmaster.Subscribe d Sample.orderCreated Sample.H1)
    Sample.orderShipped Sample.H2 =
  Matmaster.Subscribe (Matmaster.Subscribe d Sample.orderShipped Sample.H2)
    Sample.orderCreated Sample.H1.
Proof.
  intros d.
  assert (He : reflect_TypeOf Sample.orderCreated
                 = reflect_TypeOf Fixtures.orderCreated2) by reflexivity.
  assert (Hne : reflect_TypeOf Sample.orderCreated
                  ≠ reflect_TypeOf Sample.orderShipped) by (by vm_compute).
  split_and!; [exact He | | exact Hne |].
  - exact (proj1 (Subscribe_uses_the_type_only d Sample.orderCreated
                    Fixtures.orderCreated2 Sample.H1 Sample.H1) He).
  - exact (proj2 (Subscribe_uses_the_type_only d Sample.orderCreated
                    Sample.orderShipped Sample.H1 Sample.H2) Hne).
Defined.

Lemma ExampleTest_Dispatch_fan_out_witness :
  let d := ExampleTest.NewInMemoryDispatcher (Data:=Sample.Data) (World:=Sample.world) in
  let subs := [(Some (TPtr Sample.OrderCreatedEvent), Sample.notify "N1");
               (Some (TPtr Sample.OrderShippedEvent), Sample.notify "N3");
               (Some (TPtr Sample.OrderCreatedEvent), Sample.notify "N2")] in
  ExampleTest.handlers d !! reflect_TypeOf Sample.orderCreated = None ∧
  ExampleTest.Dispatch (Ctx:=Sample.Ctx) d "ctx" Sample.orderCreated Sample.w0 = (tt, Sample.w0) ∧
  Sample.log (ExampleTest.Dispatch (Ctx:=Sample.Ctx) (ExampleTest_SubscribeAll d subs)
                "ctx" Sample.orderCreated Sample.w0).2 =
    ["N1(*simpleapp.OrderCreatedEvent)"; "N2(*simpleapp.OrderCreatedEvent)"].
Proof.
  intros d subs.
  assert (H : ExampleTest.handlers d !! reflect_TypeOf Sample.orderCreated = None)
    by reflexivity.
  destruct (ExampleTest_Dispatch_fan_out d subs ("ctx" : Sample.Ctx)
              ("other" : Sample.Ctx) Sample.orderCreated Sample.w0)
    as (Hnone & Hall & _).
  split_and!; [exact H | exact (Hnone H) |].
  exact (f_equal (λ x, Sample.log x.2) Hall).
Defined.

(** ** Event identifiers, continued *)

Lemma hexdigits_of_byte (v : byte) :
  is_hexdigit (hexdigit (N.shiftr (Byte.to_N v) 4)) ∧
  is_hexdigit (hexdigit (N.land (Byte.to_N v) 15)).
Proof.
  unfold is_hexdigit.
  destruct v; split; apply list_elem_of_In; vm_compute;
    repeat (first [left; reflexivity | right]).
Qed.

Lemma hex_EncodeToString_length (l : list byte) :
  String.length (hex_EncodeToString l) = 2 * length l.
Proof. induction l as [|v l IH]; simpl; [done|]. rewrite IH. lia. Qed.

Lemma hex_EncodeToString_hexdigits (l : list byte) :
  Forall is_hexdigit (list_ascii_of_string (hex_EncodeToString l)).
Proof.
  induction l as [|v l IH]; [constructor|].
  cbn [hex_EncodeToString list_ascii_of_string].
  destruct (hexdigits_of_byte v) as [Hhi Hlo].
  apply Forall_cons; split; [exact Hhi|]. by apply Forall_cons.
Qed.

Lemma list_ascii_of_string_app (s1 s2 : string) :
  list_ascii_of_string (s1 +:+ s2) = list_ascii_of_string s1 ++ list_ascii_of_string s2.
Proof. induction s1 as [|c s1 IH]; simpl; [done|]. by rewrite IH. Qed.

Lemma dash_not_hexdigit : ¬ is_hexdigit "-"%char.
Proof.
  unfold is_hexdigit. intros H.
  apply list_elem_of_In in H. vm_compute in H.
  repeat (destruct H as [H|H]; [discriminate H|]). exact H.
Qed.

Lemma hex_EncodeToString_no_dash (l : list byte) (s1 s2 : string) :
  hex_EncodeToString l ≠ s1 +:+ "-" +:+ s2.
Proof.
  intros Heq. pose proof (hex_EncodeToString_hexdigits l) as Hhex.
  rewrite Heq, list_ascii_of_string_app in Hhex. simpl in Hhex.
  apply Forall_app in Hhex as [_ Hhex]. apply Forall_cons in Hhex as [Hdash _].
  by apply dash_not_hexdigit.
Qed.

Section EventIDExtras.
Context {World time_Time : Type}.
Implicit Types (rt : Runtime World time_Time) (w : World).

(** X11. When the randomness source answers without error, the id is 32
    characters long and consists of the digits 0-9 and a-f, however many
    bytes the source delivered. *)
Theorem generateEventID_format rt w src w0 :
  rand_Read rt 16 w = ((src, None), w0) →
  String.length (generateEventID rt w).1 = 32 ∧
  Forall is_hexdigit (list_ascii_of_string (generateEventID rt w).1) ∧
  ∀ eventType aggregateID version,
    EventID (NewBaseEvent rt eventType aggregateID version w).1
      = (generateEventID rt w).1.
Proof.
  intros Hrand. rewrite generateEventID_unfold, Hrand. simpl. split_and!.
  - by rewrite hex_EncodeToString_length, length_slice_fill.
  - apply hex_EncodeToString_hexdigits.
  - intros eventType aggregateID version.
    rewrite NewBaseEvent_unfold, generateEventID_unfold, Hrand.
    by destruct (time_Now rt w0).
Qed.

(** X12. An id made on the fallback path is never equal to an id made from
    random bytes, whatever the clock and the time formatting give: the
    fallback id has a dash, the other one has hex digits only. *)
Theorem fallback_id_differs_from_random_id rt rt' w w' src w0 src' err w0' :
  rand_Read rt 16 w = ((src, None), w0) →
  rand_Read rt' 16 w' = ((src', Some err), w0') →
  (generateEventID rt w).1 ≠ (generateEventID rt' w').1.
Proof.
  intros Hrand Hrand'. rewrite !generateEventID_unfold, Hrand, Hrand'. simpl.
  destruct (time_Now rt' w0') as [t1 wa], (time_Now rt' wa) as [t2 wb]. simpl.
  apply hex_EncodeToString_no_dash.
Qed.
End EventIDExtras.

Lemma generateEventID_format_witness :
  rand_Read Sample.runtime 16 Sample.w_distinct =
    ((Sample.zeros, None),
     {| Sample.log := []; Sample.clock := 1700000000;
        Sample.entropy := [(Sample.ones, None)] |}) ∧
  String.length (generateEventID Sample.runtime Sample.w_distinct).1 = 32.
Proof.
  split; [reflexivity|].
  exact (proj1 (generateEventID_format Sample.runtime Sample.w_distinct _ _ eq_refl)).
Defined.

Lemma fallback_id_differs_from_random_id_witness :
  (rand_Read Sample.runtime 16 Sample.w_distinct).1 = (Sample.zeros, None) ∧
  (rand_Read Sample.runtime 16 Sample.w0).1
    = ([], fmt_Errorf "entropy source unavailable") ∧
  (generateEventID Sample.runtime Sample.w_distinct).1
    ≠ (generateEventID Sample.runtime Sample.w0).1.
Proof.
  split_and!; [reflexivity..|].
  exact (fallback_id_differs_from_random_id Sample.runtime Sample.runtime
           Sample.w_distinct Sample.w0 _ _ _ _ _ eq_refl eq_refl).
Defined.

(** ** The order module and the examples *)

Section OrderExampleProperties.
Context {float64 time_Time Ctx Env : Type}.
Context (float64_le_zero : float64 → bool) (fmt_f : float64 → string).
Context (context_Background context_TODO : Ctx).
Context (rt : Runtime Env time_Time).

#[local] Abbreviation world := (@OrderExample.world Env).
#[local] Abbreviation gval := (@OrderExample.gval float64 time_Time).
#[local] Abbreviation OrderModule := (@OrderExample.OrderModule float64 time_Time Ctx Env).
#[local] Abbreviation as_Module :=
  (OrderExample.as_Module float64_le_zero fmt_f context_TODO rt).
#[local] Abbreviation console_emitter :=
  (@OrderExample.console_emitter float64 time_Time Ctx Env).
#[local] Abbreviation box := (@OrderExample.box float64 time_Time).

Implicit Types (w : world) (m : OrderModule) (ctx : Ctx).
Implicit Types (d : ExampleTest.InMemoryDispatcher gval world).

Lemma unless_panicking_running (f : world → world) w :
  OrderExample.panicking w = None →
  OrderExample.unless_panicking f w = (tt, f w).
Proof. intros Hw. unfold OrderExample.unless_panicking. by rewrite Hw. Qed.

Lemma fmt_Printf_running text w :
  OrderExample.panicking w = None →
  OrderExample.fmt_Printf text w = (tt, OrderExample.printed text w).
Proof. apply unless_panicking_running. Qed.

Lemma on_env_running {A} (f : M Env A) w :
  OrderExample.panicking w = None →
  OrderExample.on_env f w =
    ((f (OrderExample.env w)).1, OrderExample.with_env (f (OrderExample.env w)).2 w).
Proof.
  intros Hw. unfold OrderExample.on_env, OrderExample.with_env. by rewrite Hw.
Qed.

Lemma time_Now_running w :
  OrderExample.panicking w = None →
  time_Now (OrderExample.runtime rt) w =
    ((time_Now rt (OrderExample.env w)).1,
     OrderExample.with_env (time_Now rt (OrderExample.env w)).2 w).
Proof. apply on_env_running. Qed.

Lemma rand_Read_running n w :
  OrderExample.panicking w = None →
  rand_Read (OrderExample.runtime rt) n w =
    ((rand_Read rt n (OrderExample.env w)).1,
     OrderExample.with_env (rand_Read rt n (OrderExample.env w)).2 w).
Proof. apply on_env_running. Qed.

Lemma with_env_with_env (e1 e2 : Env) w :
  OrderExample.with_env e2 (OrderExample.with_env e1 w) = OrderExample.with_env e2 w.
Proof. done. Qed.

Lemma generateEventID_running w :
  OrderExample.panicking w = None →
  ∃ e', (generateEventID (OrderExample.runtime rt) w).2 = OrderExample.with_env e' w.
Proof.
  intros Hw. rewrite generateEventID_unfold, rand_Read_running by done.
  destruct (rand_Read rt 16 (OrderExample.env w)) as [[src [err|]] e1].
  - cbn [fst snd]. rewrite time_Now_running by done.
    rewrite time_Now_running by done. cbn [fst snd].
    rewrite with_env_with_env. eauto.
  - cbn [fst snd]. eauto.
Qed.

Lemma NewBaseEvent_running eventType aggregateID version w :
  OrderExample.panicking w = None →
  ∃ base e e',
    NewBaseEvent (OrderExample.runtime rt) eventType aggregateID version w =
      (base, OrderExample.with_env e' w) ∧
    EventType base = eventType ∧ AggregateID base = aggregateID ∧
    EventVersion base = version ∧ EventID base ≠ "" ∧
    EventTime base = Time_UTC rt (time_Now rt e).1.
Proof.
  intros Hw.
  pose proof (generateEventID_nonempty (OrderExample.runtime rt) w) as Hne.
  destruct (generateEventID_running w Hw) as [e1 Hgen].
  rewrite NewBaseEvent_unfold.
  destruct (generateEventID (OrderExample.runtime rt) w) as [id w1].
  cbn [fst snd] in Hgen, Hne. subst w1. rewrite time_Now_running by done.
  cbn [fst snd]. rewrite with_env_with_env.
  eexists _, e1, _. split_and!; [done..|]. done.
Qed.
Lemma Emit_run (e : EventEmitter gval Ctx world) ctx (event : iface gval) w :
  Emit OrderExample.log_Printf e ctx event w =
    Dispatch (Dispatcher' e) ctx event
      match (Write (LogWriter e) event w).1 with
      | Some err =>
          exec (OrderExample.log_Printf ("audit log failed: " +:+ Error err))
            (Write (LogWriter e) event w).2
      | None => (Write (LogWriter e) event w).2
      end.
Proof.
  unfold Emit, mbind, M_bind, exec.
  destruct (Write (LogWriter e) event w) as [[err|] w1]; cbn [fst snd]; [|done].
  by destruct (OrderExample.log_Printf _ w1).
Qed.

Lemma ConsoleEventLogger_Write_running (event : iface gval) base w :
  OrderExample.base_of event = Some (Some base) →
  OrderExample.panicking w = None →
  OrderExample.ConsoleEventLogger_Write event w =
    (None, OrderExample.printed
             ("[EVENT LOG] " +:+ EventType base +:+ " for " +:+ AggregateID base
              +:+ OrderExample.LF) w).
Proof.
  intros Hbase Hw. unfold OrderExample.ConsoleEventLogger_Write.
  rewrite Hbase. cbn [OrderExample.with_pointee]. unfold mbind, M_bind.
  by rewrite fmt_Printf_running.
Qed.

Lemma Emit_console d ctx (event : iface gval) base w :
  OrderExample.base_of event = Some (Some base) →
  OrderExample.panicking w = None →
  Emit OrderExample.log_Printf (console_emitter d) ctx event w =
    (tt, OrderExample.delivered d event
           (OrderExample.printed
              ("[EVENT LOG] " +:+ EventType base +:+ " for " +:+ AggregateID base
               +:+ OrderExample.LF) w)).
Proof.
  intros Hbase Hw. rewrite Emit_run.
  change (Write (LogWriter (console_emitter d)) event w)
    with (OrderExample.ConsoleEventLogger_Write event w).
  rewrite (ConsoleEventLogger_Write_running event base) by done. cbn [fst snd].
  change (Dispatch (Dispatcher' (console_emitter d)) ctx event)
    with (ExampleTest.Dispatch d ctx event).
  by rewrite ExampleTest_Dispatch_foldl.
Qed.

Lemma OrderModule_router m :
  handlers (NewApp [as_Module m]) =
    OrderExample.OrderModule_Handlers float64_le_zero fmt_f context_TODO rt m.
Proof.
  change [as_Module m] with ([] ++ [as_Module m]). rewrite NewApp_snoc.
  simpl. by rewrite (right_id_L ∅ (∪)).
Qed.

Lemma Handle_createOrder m ctx p :
  Handle (NewApp [as_Module m]) ctx (box (OrderExample.VCreateOrderCommand p)) =
    OrderExample.createOrder context_TODO rt m ctx
      (box (OrderExample.VCreateOrderCommand p)).
Proof.
  apply Handle_Some. rewrite OrderModule_router.
  unfold OrderExample.OrderModule_Handlers. simpl. by rewrite lookup_insert_eq.
Qed.

Lemma Handle_processPayment m ctx p :
  Handle (NewApp [as_Module m]) ctx (box (OrderExample.VProcessPaymentCommand p)) =
    OrderExample.processPayment float64_le_zero fmt_f context_TODO rt m ctx
      (box (OrderExample.VProcessPaymentCommand p)).
Proof.
  apply Handle_Some. rewrite OrderModule_router.
  unfold OrderExample.OrderModule_Handlers. simpl.
  rewrite lookup_insert_ne by done. by rewrite lookup_insert_eq.
Qed.

Lemma Handle_shipOrder m ctx p :
  Handle (NewApp [as_Module m]) ctx (box (OrderExample.VShipOrderCommand p)) =
    OrderExample.shipOrder context_TODO rt m ctx
      (box (OrderExample.VShipOrderCommand p)).
Proof.
  apply Handle_Some. rewrite OrderModule_router.
  unfold OrderExample.OrderModule_Handlers. simpl.
  rewrite !lookup_insert_ne by done. by rewrite lookup_singleton_eq.
Qed.
Lemma assert_type_box (v : gval) :
  OrderExample.assert_type (OrderExample.typeof v) (box v) = Some v.
Proof. unfold OrderExample.assert_type. simpl. by rewrite decide_True. Qed.

Lemma with_pointee_Some {T A} (x : T) (dummy : A) (k : T → M world A) :
  OrderExample.with_pointee (Some (Some x)) dummy k = k x.
Proof. done. Qed.

Lemma createOrder_run d ctx (c : OrderExample.CreateOrderCommand) w :
  OrderExample.panicking w = None →
  ∃ base e e',
    EventType base = "OrderCreated" ∧
    AggregateID base =
      "order-" +:+ OrderExample.CreateOrderCommand_CustomerID c
      +:+ "-" +:+ OrderExample.CreateOrderCommand_ProductID c ∧
    EventVersion base = 1%Z ∧ EventID base ≠ "" ∧
    EventTime base = Time_UTC rt (time_Now rt e).1 ∧
    OrderExample.createOrder context_TODO rt
      {| OrderExample.eventEmitter := Some (console_emitter d) |} ctx
      (box (OrderExample.VCreateOrderCommand (Some c))) w =
      ((box (OrderExample.VMap
          {[ "order_id" := box (OrderExample.VString
                ("order-" +:+ OrderExample.CreateOrderCommand_CustomerID c
                 +:+ "-" +:+ OrderExample.CreateOrderCommand_ProductID c));
             "customer_id" := box (OrderExample.VString
                (OrderExample.CreateOrderCommand_CustomerID c));
             "product_id" := box (OrderExample.VString
                (OrderExample.CreateOrderCommand_ProductID c));
             "quantity" := box (OrderExample.VInt
                (OrderExample.CreateOrderCommand_Quantity c));
             "total_amount" := box (OrderExample.VFloat
                (OrderExample.CreateOrderCommand_TotalAmount c));
             "status" := box (OrderExample.VString "created") ]}), None),
       OrderExample.delivered d
         (box (OrderExample.VOrderCreatedEvent (Some
            {| OrderExample.OrderCreatedEvent_BaseEvent := base;
               OrderExample.OrderCreatedEvent_CustomerID :=
                 OrderExample.CreateOrderCommand_CustomerID c;
               OrderExample.OrderCreatedEvent_ProductID :=
                 OrderExample.CreateOrderCommand_ProductID c;
               OrderExample.OrderCreatedEvent_Quantity :=
                 OrderExample.CreateOrderCommand_Quantity c;
               OrderExample.OrderCreatedEvent_TotalAmount :=
                 OrderExample.CreateOrderCommand_TotalAmount c |})))
         (OrderExample.printed
            ("[EVENT LOG] OrderCreated for "
             +:+ ("order-" +:+ OrderExample.CreateOrderCommand_CustomerID c
                  +:+ "-" +:+ OrderExample.CreateOrderCommand_ProductID c)
             +:+ OrderExample.LF)
            (OrderExample.with_env e' w))).
Proof.
  intros Hw.
  destruct (NewBaseEvent_running "OrderCreated"
              ("order-" +:+ OrderExample.CreateOrderCommand_CustomerID c
               +:+ "-" +:+ OrderExample.CreateOrderCommand_ProductID c) 1 w Hw)
    as (base & e & e' & Hnew & Hty & Hag & Hv & Hid & Htime).
  exists base, e, e'. split_and!; [done..|].
  unfold OrderExample.createOrder, OrderExample.assert_CreateOrderCommand.
  pose proof (assert_type_box (OrderExample.VCreateOrderCommand (Some c))) as Ha.
  cbn [OrderExample.typeof] in Ha. rewrite Ha, with_pointee_Some.
  unfold OrderExample.NewOrderCreatedEvent, mbind, M_bind. rewrite Hnew.
  cbn [mret M_ret OrderExample.Emit_through OrderExample.eventEmitter].
  rewrite (Emit_console d context_TODO _ base) by done.
  by rewrite Hty, Hag.
Qed.
Lemma processPayment_rejected m ctx (p : OrderExample.ProcessPaymentCommand) w :
  float64_le_zero (OrderExample.ProcessPaymentCommand_Amount p) = true →
  OrderExample.processPayment float64_le_zero fmt_f context_TODO rt m ctx
    (box (OrderExample.VProcessPaymentCommand (Some p))) w =
    ((None, Some (mkError ("invalid payment amount: "
                           +:+ fmt_f (OrderExample.ProcessPaymentCommand_Amount p)))), w).
Proof.
  intros Hle.
  unfold OrderExample.processPayment, OrderExample.assert_ProcessPaymentCommand.
  pose proof (assert_type_box (OrderExample.VProcessPaymentCommand (Some p))) as Ha.
  cbn [OrderExample.typeof] in Ha. rewrite Ha, with_pointee_Some. by rewrite Hle.
Qed.

Lemma processPayment_run d ctx (p : OrderExample.ProcessPaymentCommand) w :
  float64_le_zero (OrderExample.ProcessPaymentCommand_Amount p) = false →
  OrderExample.panicking w = None →
  ∃ base e e',
    EventType base = "PaymentProcessed" ∧
    AggregateID base = OrderExample.ProcessPaymentCommand_OrderID p ∧
    EventVersion base = 1%Z ∧ EventID base ≠ "" ∧
    EventTime base = Time_UTC rt (time_Now rt e).1 ∧
    OrderExample.processPayment float64_le_zero fmt_f context_TODO rt
      {| OrderExample.eventEmitter := Some (console_emitter d) |} ctx
      (box (OrderExample.VProcessPaymentCommand (Some p))) w =
      ((box (OrderExample.VMap
          {[ "order_id" := box (OrderExample.VString
                (OrderExample.ProcessPaymentCommand_OrderID p));
             "amount_charged" := box (OrderExample.VFloat
                (OrderExample.ProcessPaymentCommand_Amount p));
             "payment_status" := box (OrderExample.VString "completed");
             "transaction_id" := box (OrderExample.VString
                ("txn-" +:+ OrderExample.ProcessPaymentCommand_OrderID p)) ]}), None),
       OrderExample.delivered d
         (box (OrderExample.VPaymentProcessedEvent (Some
            {| OrderExample.PaymentProcessedEvent_BaseEvent := base;
               OrderExample.PaymentProcessedEvent_Amount :=
                 OrderExample.ProcessPaymentCommand_Amount p;
               OrderExample.PaymentProcessedEvent_TransactionID :=
                 "txn-" +:+ OrderExample.ProcessPaymentCommand_OrderID p |})))
         (OrderExample.printed
            ("[EVENT LOG] PaymentProcessed for "
             +:+ OrderExample.ProcessPaymentCommand_OrderID p +:+ OrderExample.LF)
            (OrderExample.with_env e' w))).
Proof.
  intros Hle Hw.
  destruct (NewBaseEvent_running "PaymentProcessed"
              (OrderExample.ProcessPaymentCommand_OrderID p) 1 w Hw)
    as (base & e & e' & Hnew & Hty & Hag & Hv & Hid & Htime).
  exists base, e, e'. split_and!; [done..|].
  unfold OrderExample.processPayment, OrderExample.assert_ProcessPaymentCommand.
  pose proof (assert_type_box (OrderExample.VProcessPaymentCommand (Some p))) as Ha.
  cbn [OrderExample.typeof] in Ha. rewrite Ha, with_pointee_Some, Hle.
  unfold OrderExample.NewPaymentProcessedEvent, mbind, M_bind. rewrite Hnew.
  cbn [mret M_ret OrderExample.Emit_through OrderExample.eventEmitter].
  rewrite (Emit_console d context_TODO _ base) by done.
  by rewrite Hty, Hag.
Qed.

Lemma shipOrder_run d ctx (c : OrderExample.ShipOrderCommand) w :
  OrderExample.panicking w = None →
  ∃ base e e',
    EventType base = "OrderShipped" ∧
    AggregateID base = OrderExample.ShipOrderCommand_OrderID c ∧
    EventVersion base = 1%Z ∧ EventID base ≠ "" ∧
    EventTime base = Time_UTC rt (time_Now rt e).1 ∧
    OrderExample.shipOrder context_TODO rt
      {| OrderExample.eventEmitter := Some (console_emitter d) |} ctx
      (box (OrderExample.VShipOrderCommand (Some c))) w =
      ((box (OrderExample.VMap
          {[ "order_id" := box (OrderExample.VString
                (OrderExample.ShipOrderCommand_OrderID c));
             "shipping_address" := box (OrderExample.VString
                (OrderExample.ShipOrderCommand_ShippingAddress c));
             "tracking_number" := box (OrderExample.VString
                ("TRK" +:+ OrderExample.ShipOrderCommand_OrderID c));
             "status" := box (OrderExample.VString "shipped") ]}), None),
       OrderExample.delivered d
         (box (OrderExample.VOrderShippedEvent (Some
            {| OrderExample.OrderShippedEvent_BaseEvent := base;
               OrderExample.OrderShippedEvent_TrackingNumber :=
                 "TRK" +:+ OrderExample.ShipOrderCommand_OrderID c;
               OrderExample.OrderShippedEvent_ShippingAddress :=
                 OrderExample.ShipOrderCommand_ShippingAddress c |})))
         (OrderExample.printed
            ("[EVENT LOG] OrderShipped for "
             +:+ OrderExample.ShipOrderCommand_OrderID c +:+ OrderExample.LF)
            (OrderExample.with_env e' w))).
Proof.
  intros Hw.
  destruct (NewBaseEvent_running "OrderShipped"
              (OrderExample.ShipOrderCommand_OrderID c) 1 w Hw)
    as (base & e & e' & Hnew & Hty & Hag & Hv & Hid & Htime).
  exists base, e, e'. split_and!; [done..|].
  unfold OrderExample.shipOrder, OrderExample.assert_ShipOrderCommand.
  pose proof (assert_type_box (OrderExample.VShipOrderCommand (Some c))) as Ha.
  cbn [OrderExample.typeof] in Ha. rewrite Ha, with_pointee_Some.
  unfold OrderExample.NewOrderShippedEvent, mbind, M_bind. rewrite Hnew.
  cbn [mret M_ret OrderExample.Emit_through OrderExample.eventEmitter].
  rewrite (Emit_console d context_TODO _ base) by done.
  by rewrite Hty, Hag.
Qed.

(** X13. Creating an order through the router, with the console logger and
    an in-memory dispatcher behind the module: for every command and every
    world without a pending panic, the runtime is consulted for one event,
    the line "[EVENT LOG] OrderCreated for <order id>" is printed, then the
    subscribers of [*OrderCreatedEvent] run in subscription order on an event
    of type "OrderCreated", version 1, with a non-empty id, whose aggregate
    id is the order id "order-<customer>-<product>" and which carries the
    command's fields; the handler returns the result map and a nil error. *)
Theorem Handle_createOrder_end_to_end d ctx (c : OrderExample.CreateOrderCommand) w :
  OrderExample.panicking w = None →
  let orderID := "order-" +:+ OrderExample.CreateOrderCommand_CustomerID c
                 +:+ "-" +:+ OrderExample.CreateOrderCommand_ProductID c in
  ∃ base e' result,
    EventType base = "OrderCreated" ∧ AggregateID base = orderID ∧
    EventVersion base = 1%Z ∧ EventID base ≠ "" ∧
    OrderExample.index result "order_id" = box (OrderExample.VString orderID) ∧
    OrderExample.index result "quantity" =
      box (OrderExample.VInt (OrderExample.CreateOrderCommand_Quantity c)) ∧
    OrderExample.index result "status" = box (OrderExample.VString "created") ∧
    Handle (NewApp [as_Module {| OrderExample.eventEmitter := Some (console_emitter d) |}])
      ctx (box (OrderExample.VCreateOrderCommand (Some c))) w =
      ((box (OrderExample.VMap result), None),
       OrderExample.delivered d
         (box (OrderExample.VOrderCreatedEvent (Some
            {| OrderExample.OrderCreatedEvent_BaseEvent := base;
               OrderExample.OrderCreatedEvent_CustomerID :=
                 OrderExample.CreateOrderCommand_CustomerID c;
               OrderExample.OrderCreatedEvent_ProductID :=
                 OrderExample.CreateOrderCommand_ProductID c;
               OrderExample.OrderCreatedEvent_Quantity :=
                 OrderExample.CreateOrderCommand_Quantity c;
               OrderExample.OrderCreatedEvent_TotalAmount :=
                 OrderExample.CreateOrderCommand_TotalAmount c |})))
         (OrderExample.printed
            ("[EVENT LOG] OrderCreated for " +:+ orderID +:+ OrderExample.LF)
            (OrderExample.with_env e' w))).
Proof.
  intros Hw orderID.
  destruct (createOrder_run d ctx c w Hw)
    as (base & e & e' & Hty & Hag & Hv & Hid & _ & Hrun).
  eexists base, e', _. rewrite Handle_createOrder, Hrun.
  split_and!; [done..| | | |reflexivity]; by vm_compute.
Qed.

(** X14. Paying through the router.  A payment whose amount is not above
    zero is refused for every module and world: nil result, the error
    "invalid payment amount: <amount>", no event, no output, nothing
    changed.  Otherwise, with the console logger and an in-memory dispatcher
    behind the module, the line "[EVENT LOG] PaymentProcessed for <order>" is
    printed and the subscribers of [*PaymentProcessedEvent] run on an event
    with that aggregate id and the transaction id "txn-<order>". *)
Theorem Handle_processPayment_end_to_end m d ctx (p : OrderExample.ProcessPaymentCommand) w :
  (float64_le_zero (OrderExample.ProcessPaymentCommand_Amount p) = true →
     Handle (NewApp [as_Module m]) ctx
       (box (OrderExample.VProcessPaymentCommand (Some p))) w =
       ((None, Some (mkError ("invalid payment amount: "
                     +:+ fmt_f (OrderExample.ProcessPaymentCommand_Amount p)))), w)) ∧
  (float64_le_zero (OrderExample.ProcessPaymentCommand_Amount p) = false →
   OrderExample.panicking w = None →
   ∃ base e' result,
     EventType base = "PaymentProcessed" ∧
     AggregateID base = OrderExample.ProcessPaymentCommand_OrderID p ∧
     EventVersion base = 1%Z ∧ EventID base ≠ "" ∧
     OrderExample.index result "transaction_id" =
       box (OrderExample.VString ("txn-" +:+ OrderExample.ProcessPaymentCommand_OrderID p)) ∧
     OrderExample.index result "payment_status" = box (OrderExample.VString "completed") ∧
     Handle (NewApp [as_Module {| OrderExample.eventEmitter := Some (console_emitter d) |}])
       ctx (box (OrderExample.VProcessPaymentCommand (Some p))) w =
       ((box (OrderExample.VMap result), None),
        OrderExample.delivered d
          (box (OrderExample.VPaymentProcessedEvent (Some
             {| OrderExample.PaymentProcessedEvent_BaseEvent := base;
                OrderExample.PaymentProcessedEvent_Amount :=
                  OrderExample.ProcessPaymentCommand_Amount p;
                OrderExample.PaymentProcessedEvent_TransactionID :=
                  "txn-" +:+ OrderExample.ProcessPaymentCommand_OrderID p |})))
          (OrderExample.printed
             ("[EVENT LOG] PaymentProcessed for "
              +:+ OrderExample.ProcessPaymentCommand_OrderID p +:+ OrderExample.LF)
             (OrderExample.with_env e' w)))).
Proof.
  split.
  - intros Hle. rewrite Handle_processPayment. by apply processPayment_rejected.
  - intros Hle Hw.
    destruct (processPayment_run d ctx p w Hle Hw)
      as (base & e & e' & Hty & Hag & Hv & Hid & _ & Hrun).
    eexists base, e', _. rewrite Handle_processPayment, Hrun.
    split_and!; [done..| | |reflexivity]; by vm_compute.
Qed.

(** X15. Shipping through the router, with the console logger and an
    in-memory dispatcher behind the module: the line "[EVENT LOG]
    OrderShipped for <order>" is printed, then the subscribers of
    [*OrderShippedEvent] run on an event with that aggregate id and the
    tracking number "TRK<order>", which is also in the result map. *)
Theorem Handle_shipOrder_end_to_end d ctx (c : OrderExample.ShipOrderCommand) w :
  OrderExample.panicking w = None →
  ∃ base e' result,
    EventType base = "OrderShipped" ∧
    AggregateID base = OrderExample.ShipOrderCommand_OrderID c ∧
    EventVersion base = 1%Z ∧ EventID base ≠ "" ∧
    OrderExample.index result "tracking_number" =
      box (OrderExample.VString ("TRK" +:+ OrderExample.ShipOrderCommand_OrderID c)) ∧
    OrderExample.index result "status" = box (OrderExample.VString "shipped") ∧
    Handle (NewApp [as_Module {| OrderExample.eventEmitter := Some (console_emitter d) |}])
      ctx (box (OrderExample.VShipOrderCommand (Some c))) w =
      ((box (OrderExample.VMap result), None),
       OrderExample.delivered d
         (box (OrderExample.VOrderShippedEvent (Some
            {| OrderExample.OrderShippedEvent_BaseEvent := base;
               OrderExample.OrderShippedEvent_TrackingNumber :=
                 "TRK" +:+ OrderExample.ShipOrderCommand_OrderID c;
               OrderExample.OrderShippedEvent_ShippingAddress :=
                 OrderExample.ShipOrderCommand_ShippingAddress c |})))
         (OrderExample.printed
            ("[EVENT LOG] OrderShipped for "
             +:+ OrderExample.ShipOrderCommand_OrderID c +:+ OrderExample.LF)
            (OrderExample.with_env e' w))).
Proof.
  intros Hw.
  destruct (shipOrder_run d ctx c w Hw)
    as (base & e & e' & Hty & Hag & Hv & Hid & _ & Hrun).
  eexists base, e', _. rewrite Handle_shipOrder, Hrun.
  split_and!; [done..| | |reflexivity]; by vm_compute.
Qed.
Lemma M_bind_run {A B} (f : M world A) (k : A → M world B) w :
  (f ≫= k) w = k (f w).1 (f w).2.
Proof. unfold mbind, M_bind. by destruct (f w). Qed.

Lemma assert_map_box (result : gmap string (iface gval)) :
  OrderExample.assert_map (box (OrderExample.VMap result)) = Some result.
Proof.
  unfold OrderExample.assert_map.
  pose proof (assert_type_box (OrderExample.VMap result)) as Ha.
  cbn [OrderExample.typeof] in Ha. by rewrite Ha.
Qed.

Lemma assert_string_box (s : string) :
  OrderExample.assert_string (box (OrderExample.VString s)) = Some s.
Proof.
  unfold OrderExample.assert_string.
  pose proof (assert_type_box (OrderExample.VString s)) as Ha.
  cbn [OrderExample.typeof] in Ha. by rewrite Ha.
Qed.

Lemma notifyOrderCreated_run (ev : OrderExample.OrderCreatedEvent) w :
  OrderExample.panicking w = None →
  exec (OrderExample.notifyOrderCreated (box (OrderExample.VOrderCreatedEvent (Some ev)))) w =
    OrderExample.printed
      ("[HANDLER] Order created notification sent to customer "
       +:+ OrderExample.OrderCreatedEvent_CustomerID ev +:+ OrderExample.LF) w.
Proof.
  intros Hw. unfold OrderExample.notifyOrderCreated, OrderExample.assert_OrderCreatedEvent.
  pose proof (assert_type_box (OrderExample.VOrderCreatedEvent (Some ev))) as Ha.
  cbn [OrderExample.typeof] in Ha. rewrite Ha, with_pointee_Some.
  unfold exec. by rewrite fmt_Printf_running.
Qed.

Lemma notifyPaymentProcessed_run (ev : OrderExample.PaymentProcessedEvent) w :
  OrderExample.panicking w = None →
  exec (OrderExample.notifyPaymentProcessed
          (box (OrderExample.VPaymentProcessedEvent (Some ev)))) w =
    OrderExample.printed
      ("[HANDLER] Payment confirmation email sent for order "
       +:+ AggregateID (OrderExample.PaymentProcessedEvent_BaseEvent ev)
       +:+ OrderExample.LF) w.
Proof.
  intros Hw.
  unfold OrderExample.notifyPaymentProcessed, OrderExample.assert_PaymentProcessedEvent.
  pose proof (assert_type_box (OrderExample.VPaymentProcessedEvent (Some ev))) as Ha.
  cbn [OrderExample.typeof] in Ha. rewrite Ha, with_pointee_Some.
  unfold exec. by rewrite fmt_Printf_running.
Qed.

Lemma notifyOrderShipped_run (ev : OrderExample.OrderShippedEvent) w :
  OrderExample.panicking w = None →
  exec (OrderExample.notifyOrderShipped (box (OrderExample.VOrderShippedEvent (Some ev)))) w =
    OrderExample.printed
      ("[HANDLER] Shipping notification sent with tracking "
       +:+ OrderExample.OrderShippedEvent_TrackingNumber ev +:+ OrderExample.LF) w.
Proof.
  intros Hw. unfold OrderExample.notifyOrderShipped, OrderExample.assert_OrderShippedEvent.
  pose proof (assert_type_box (OrderExample.VOrderShippedEvent (Some ev))) as Ha.
  cbn [OrderExample.typeof] in Ha. rewrite Ha, with_pointee_Some.
  unfold exec. by rewrite fmt_Printf_running.
Qed.

(** The dispatcher [Example] sets up. *)
#[local] Abbreviation example_dispatcher :=
  (ExampleTest.Subscribe
     (ExampleTest.Subscribe
        (ExampleTest.Subscribe
           (ExampleTest.NewInMemoryDispatcher (Data:=gval) (World:=world))
           (Some (TPtr OrderExample.T_OrderCreatedEvent))
           OrderExample.notifyOrderCreated)
        (Some (TPtr OrderExample.T_PaymentProcessedEvent))
        OrderExample.notifyPaymentProcessed)
     (Some (TPtr OrderExample.T_OrderShippedEvent))
     OrderExample.notifyOrderShipped).

Lemma example_delivered_created (ev : OrderExample.OrderCreatedEvent) w :
  OrderExample.panicking w = None →
  OrderExample.delivered example_dispatcher
    (box (OrderExample.VOrderCreatedEvent (Some ev))) w =
    OrderExample.printed
      ("[HANDLER] Order created notification sent to customer "
       +:+ OrderExample.OrderCreatedEvent_CustomerID ev +:+ OrderExample.LF) w.
Proof.
  intros Hw. unfold OrderExample.delivered.
  assert (ExampleTest.handlers example_dispatcher
            !!! reflect_TypeOf (box (OrderExample.VOrderCreatedEvent (Some ev)))
          = [OrderExample.notifyOrderCreated]) as -> by (vm_compute; reflexivity).
  simpl. by apply notifyOrderCreated_run.
Qed.

Lemma example_delivered_payment (ev : OrderExample.PaymentProcessedEvent) w :
  OrderExample.panicking w = None →
  OrderExample.delivered example_dispatcher
    (box (OrderExample.VPaymentProcessedEvent (Some ev))) w =
    OrderExample.printed
      ("[HANDLER] Payment confirmation email sent for order "
       +:+ AggregateID (OrderExample.PaymentProcessedEvent_BaseEvent ev)
       +:+ OrderExample.LF) w.
Proof.
  intros Hw. unfold OrderExample.delivered.
  assert (ExampleTest.handlers example_dispatcher
            !!! reflect_TypeOf (box (OrderExample.VPaymentProcessedEvent (Some ev)))
          = [OrderExample.notifyPaymentProcessed]) as -> by (vm_compute; reflexivity).
  simpl. by apply notifyPaymentProcessed_run.
Qed.

Lemma example_delivered_shipped (ev : OrderExample.OrderShippedEvent) w :
  OrderExample.panicking w = None →
  OrderExample.delivered example_dispatcher
    (box (OrderExample.VOrderShippedEvent (Some ev))) w =
    OrderExample.printed
      ("[HANDLER] Shipping notification sent with tracking "
       +:+ OrderExample.OrderShippedEvent_TrackingNumber ev +:+ OrderExample.LF) w.
Proof.
  intros Hw. unfold OrderExample.delivered.
  assert (ExampleTest.handlers example_dispatcher
            !!! reflect_TypeOf (box (OrderExample.VOrderShippedEvent (Some ev)))
          = [OrderExample.notifyOrderShipped]) as -> by (vm_compute; reflexivity).
  simpl. by apply notifyOrderShipped_run.
Qed.
Lemma index_order_id (x1 x2 x3 x4 x5 x6 : iface gval) :
  OrderExample.index
    {[ "order_id" := x1; "customer_id" := x2; "product_id" := x3;
       "quantity" := x4; "total_amount" := x5; "status" := x6 ]} "order_id" = x1.
Proof. by vm_compute. Qed.

Lemma index_transaction_id (x1 x2 x3 x4 : iface gval) :
  OrderExample.index
    {[ "order_id" := x1; "amount_charged" := x2; "payment_status" := x3;
       "transaction_id" := x4 ]} "transaction_id" = x4.
Proof. by vm_compute. Qed.

Lemma index_tracking_number (x1 x2 x3 x4 : iface gval) :
  OrderExample.index
    {[ "order_id" := x1; "shipping_address" := x2; "tracking_number" := x3;
       "status" := x4 ]} "tracking_number" = x3.
Proof. by vm_compute. Qed.

(** X18. [Example] prints exactly the text after its [// Output:] comment,
    whatever the clock and the randomness source give, and ends without a
    pending panic and without a line in the error log -- given that the
    amount 99.99 is above zero. *)
Theorem Example_prints_its_output (fmt_s_other : gval → string)
    (amount_99_99 : float64) (env0 : Env) :
  float64_le_zero amount_99_99 = false →
  let w := exec (OrderExample.Example float64_le_zero fmt_f context_Background
                   context_TODO rt fmt_s_other amount_99_99)
                (OrderExample.start env0) in
  OrderExample.stdout w = OrderExample.Example_Output ∧
  OrderExample.errlog w = [] ∧
  OrderExample.panicking w = None.
Proof.
  intros Hamount w. subst w. unfold exec, OrderExample.Example.
  cbv zeta. rewrite M_bind_run.
  cbn [OrderExample.NewOrderModule mret M_ret fst snd].
  change (NewEventEmitter OrderExample.ConsoleEventLogger
            (ExampleTest.as_Dispatcher example_dispatcher))
    with (console_emitter example_dispatcher).
  rewrite M_bind_run, Handle_createOrder.
  lazymatch goal with
  | |- context [OrderExample.createOrder _ _ _ ?ctx (box (OrderExample.VCreateOrderCommand (Some ?c))) ?w0] =>
      destruct (createOrder_run example_dispatcher ctx c w0 eq_refl)
        as (base1 & _ & e1 & _ & _ & _ & _ & _ & ->)
  end.
  cbn [fst snd OrderExample.CreateOrderCommand_CustomerID
       OrderExample.CreateOrderCommand_ProductID].
  rewrite assert_map_box, M_bind_run.
  rewrite example_delivered_created by reflexivity.
  rewrite fmt_Printf_running by reflexivity. cbn [fst snd].
  rewrite !index_order_id, assert_string_box.
  rewrite M_bind_run, Handle_processPayment.
  lazymatch goal with
  | |- context [OrderExample.processPayment _ _ _ _ _ ?ctx (box (OrderExample.VProcessPaymentCommand (Some ?c))) ?w0] =>
      destruct (processPayment_run example_dispatcher ctx c w0 Hamount eq_refl)
        as (base2 & _ & e2 & _ & Hag2 & _ & _ & _ & ->)
  end.
  cbn [fst snd OrderExample.ProcessPaymentCommand_OrderID] in Hag2 |- *.
  rewrite assert_map_box, M_bind_run.
  rewrite example_delivered_payment by reflexivity.
  rewrite fmt_Printf_running by reflexivity. cbn [fst snd].
  rewrite index_transaction_id.
  rewrite M_bind_run, Handle_shipOrder.
  lazymatch goal with
  | |- context [OrderExample.shipOrder _ _ _ ?ctx (box (OrderExample.VShipOrderCommand (Some ?c))) ?w0] =>
      destruct (shipOrder_run example_dispatcher ctx c w0 eq_refl)
        as (base3 & _ & e3 & _ & _ & _ & _ & _ & ->)
  end.
  cbn [fst snd OrderExample.ShipOrderCommand_OrderID] in *.
  rewrite assert_map_box.
  rewrite example_delivered_shipped by reflexivity.
  rewrite fmt_Printf_running by reflexivity. cbn [fst snd].
  rewrite index_tracking_number.
  cbn [OrderExample.PaymentProcessedEvent_BaseEvent
       OrderExample.OrderShippedEvent_TrackingNumber
       OrderExample.OrderCreatedEvent_CustomerID].
  rewrite Hag2. by vm_compute.
Qed.
(** X16. The handlers of the order module do not use the context they are
    given (they emit with [context.TODO()]): dispatch through a router built
    from the module gives the same result and the same effects whatever
    context is passed to [Handle]. *)
Theorem OrderModule_ignores_the_context m ctx ctx' (cmd : iface gval) :
  Handle (NewApp [as_Module m]) ctx cmd = Handle (NewApp [as_Module m]) ctx' cmd.
Proof.
  unfold Handle. rewrite OrderModule_router.
  destruct (OrderExample.OrderModule_Handlers float64_le_zero fmt_f context_TODO rt m
              !! reflect_TypeOf cmd) as [h|] eqn:Hk; [|done].
  unfold OrderExample.OrderModule_Handlers in Hk.
  apply lookup_insert_Some in Hk as [[_ <-]|[_ Hk]]; [done|].
  apply lookup_insert_Some in Hk as [[_ <-]|[_ Hk]]; [done|].
  by apply lookup_singleton_Some in Hk as [_ <-].
Qed.

(** X17. [NewOrderModule] fails fast: given a nil emitter it panics with
    "eventEmitter cannot be nil" and does nothing else, given an emitter it
    returns a module holding it and changes nothing.  A module with a nil
    emitter would panic with a nil dereference at its first emission, after
    the event was built and before anything is printed.
    [ExampleOrderModule_nilEventEmitter] prints the text after its
    [// Output:] comment and ends with the panic recovered. *)
Theorem NewOrderModule_requires_an_emitter
    (e : option (EventEmitter gval Ctx world)) w ctx
    (c : OrderExample.CreateOrderCommand)
    (fmt_v_runtime_error : OrderExample.panic_value → string) (env0 : Env) :
  OrderExample.panicking w = None →
  (∀ e', e = Some e' →
     OrderExample.NewOrderModule e w = ({| OrderExample.eventEmitter := Some e' |}, w)) ∧
  (e = None →
     (OrderExample.NewOrderModule e w).2 =
       {| OrderExample.stdout := OrderExample.stdout w;
          OrderExample.errlog := OrderExample.errlog w;
          OrderExample.panicking :=
            Some (OrderExample.PanicString "eventEmitter cannot be nil");
          OrderExample.env := OrderExample.env w |}) ∧
  (∃ e',
     (OrderExample.createOrder context_TODO rt
        {| OrderExample.eventEmitter := None |} ctx
        (box (OrderExample.VCreateOrderCommand (Some c))) w).2 =
       {| OrderExample.stdout := OrderExample.stdout w;
          OrderExample.errlog := OrderExample.errlog w;
          OrderExample.panicking := Some OrderExample.PanicNilDereference;
          OrderExample.env := e' |}) ∧
  exec (OrderExample.ExampleOrderModule_nilEventEmitter
          (float64:=float64) (time_Time:=time_Time) (Ctx:=Ctx) fmt_v_runtime_error)
       (OrderExample.start env0) =
    {| OrderExample.stdout := OrderExample.ExampleOrderModule_nilEventEmitter_Output;
       OrderExample.errlog := [];
       OrderExample.panicking := None;
       OrderExample.env := env0 |}.
Proof.
  intros Hw. split_and!.
  - by intros e' ->.
  - intros ->. simpl. unfold OrderExample.unless_panicking. by rewrite Hw.
  - destruct (NewBaseEvent_running "OrderCreated"
                ("order-" +:+ OrderExample.CreateOrderCommand_CustomerID c
                 +:+ "-" +:+ OrderExample.CreateOrderCommand_ProductID c) 1 w Hw)
      as (base & _ & e' & Hnew & _).
    exists e'.
    unfold OrderExample.createOrder, OrderExample.assert_CreateOrderCommand.
    pose proof (assert_type_box (OrderExample.VCreateOrderCommand (Some c))) as Ha.
    cbn [OrderExample.typeof] in Ha. rewrite Ha, with_pointee_Some.
    unfold OrderExample.NewOrderCreatedEvent, mbind, M_bind. rewrite Hnew.
    cbn [mret M_ret OrderExample.Emit_through OrderExample.eventEmitter].
    unfold OrderExample.panic. by rewrite unless_panicking_running.
  - by vm_compute.
Qed.

Lemma nonempty_length (s : string) : s ≠ "" → bool_decide (0 < String.length s) = true.
Proof. intros Hs. apply bool_decide_eq_true. destruct s; simpl; [done | lia]. Qed.

(** X19. [ExampleEvent_metadata] prints exactly the text after its
    [// Output:] comment, whatever the randomness source gives, provided the
    clock never reads the zero time. *)
Theorem ExampleEvent_metadata_prints_its_output (Time_IsZero : time_Time → bool)
    (amount_99_99 : float64) (env0 : Env) :
  (∀ e, Time_IsZero (Time_UTC rt (time_Now rt e).1) = false) →
  let w := exec (OrderExample.ExampleEvent_metadata rt Time_IsZero amount_99_99)
                (OrderExample.start env0) in
  OrderExample.stdout w = OrderExample.ExampleEvent_metadata_Output ∧
  OrderExample.errlog w = [] ∧
  OrderExample.panicking w = None.
Proof.
  intros Hclock w. subst w. unfold exec, OrderExample.ExampleEvent_metadata.
  rewrite M_bind_run.
  assert (∃ base e e',
    OrderExample.NewOrderCreatedEvent rt "order-123" "customer-456" "product-789"
      2 amount_99_99 (OrderExample.start env0) =
      ({| OrderExample.OrderCreatedEvent_BaseEvent := base;
          OrderExample.OrderCreatedEvent_CustomerID := "customer-456";
          OrderExample.OrderCreatedEvent_ProductID := "product-789";
          OrderExample.OrderCreatedEvent_Quantity := 2;
          OrderExample.OrderCreatedEvent_TotalAmount := amount_99_99 |},
       OrderExample.with_env e' (OrderExample.start env0)) ∧
    EventType base = "OrderCreated" ∧ AggregateID base = "order-123" ∧
    EventVersion base = 1%Z ∧ EventID base ≠ "" ∧
    EventTime base = Time_UTC rt (time_Now rt e).1)
    as (base & e & e' & -> & Hty & Hag & Hv & Hid & Htime).
  { destruct (NewBaseEvent_running "OrderCreated" "order-123" 1
                (OrderExample.start env0) eq_refl)
      as (base & e & e' & Hnew & Hfacts).
    exists base, e, e'. split; [|done].
    unfold OrderExample.NewOrderCreatedEvent, mbind, M_bind. by rewrite Hnew. }
  cbn [fst snd OrderExample.OrderCreatedEvent_BaseEvent
       OrderExample.OrderCreatedEvent_CustomerID].
  rewrite !M_bind_run.
  rewrite Hty, Hag, Hv, Htime, Hclock, (nonempty_length _ Hid).
  by vm_compute.
Qed.
End OrderExampleProperties.

Lemma Handle_createOrder_end_to_end_witness :
  let r := Handle OrderFixtures.app "ctx"
             (OrderExample.box (OrderExample.VCreateOrderCommand (Some OrderFixtures.order)))
             OrderFixtures.w0 in
  OrderExample.panicking OrderFixtures.w0 = None ∧
  r.1.2 = None ∧
  OrderExample.stdout r.2 = "[EVENT LOG] OrderCreated for order-c1-p1" +:+ OrderExample.LF.
Proof.
  intros r. split; [reflexivity|].
  destruct (Handle_createOrder_end_to_end OrderFixtures.le_zero OrderFixtures.fmt_f
              ("todo" : OrderFixtures.Ctx) OrderFixtures.rt OrderFixtures.quiet
              "ctx" OrderFixtures.order OrderFixtures.w0 eq_refl)
    as (base & e' & result & _ & _ & _ & _ & _ & _ & _ & Hrun).
  split.
  - exact (f_equal (λ x, x.1.2) Hrun).
  - exact (f_equal (λ x, OrderExample.stdout x.2) Hrun).
Defined.

Lemma Handle_processPayment_end_to_end_witness :
  let refused := Handle OrderFixtures.app "ctx"
             (OrderExample.box (OrderExample.VProcessPaymentCommand (Some OrderFixtures.refund)))
             OrderFixtures.w0 in
  let paid := Handle OrderFixtures.app "ctx"
             (OrderExample.box (OrderExample.VProcessPaymentCommand (Some OrderFixtures.payment)))
             OrderFixtures.w0 in
  OrderFixtures.le_zero (-5)%Z = true ∧
  refused = ((None, Some (mkError "invalid payment amount: -5")), OrderFixtures.w0) ∧
  OrderFixtures.le_zero 250%Z = false ∧
  OrderExample.panicking OrderFixtures.w0 = None ∧
  paid.1.2 = None ∧
  OrderExample.stdout paid.2 =
    "[EVENT LOG] PaymentProcessed for order-c1-p1" +:+ OrderExample.LF.
Proof.
  intros refused paid.
  destruct (Handle_processPayment_end_to_end OrderFixtures.le_zero OrderFixtures.fmt_f
              ("todo" : OrderFixtures.Ctx) OrderFixtures.rt OrderFixtures.module
              OrderFixtures.quiet "ctx" OrderFixtures.refund OrderFixtures.w0)
    as [Hrefused _].
  destruct (Handle_processPayment_end_to_end OrderFixtures.le_zero OrderFixtures.fmt_f
              ("todo" : OrderFixtures.Ctx) OrderFixtures.rt OrderFixtures.module
              OrderFixtures.quiet "ctx" OrderFixtures.payment OrderFixtures.w0)
    as [_ Hpaid].
  destruct (Hpaid eq_refl eq_refl)
    as (base & e' & result & _ & _ & _ & _ & _ & _ & Hrun).
  split_and!; [reflexivity | exact (Hrefused eq_refl) | reflexivity | reflexivity | |].
  - exact (f_equal (λ x, x.1.2) Hrun).
  - exact (f_equal (λ x, OrderExample.stdout x.2) Hrun).
Defined.

Lemma Handle_shipOrder_end_to_end_witness :
  let r := Handle OrderFixtures.app "ctx"
             (OrderExample.box (OrderExample.VShipOrderCommand (Some OrderFixtures.shipment)))
             OrderFixtures.w0 in
  OrderExample.panicking OrderFixtures.w0 = None ∧
  r.1.2 = None ∧
  OrderExample.stdout r.2 = "[EVENT LOG] OrderShipped for order-c1-p1" +:+ OrderExample.LF.
Proof.
  intros r. split; [reflexivity|].
  destruct (Handle_shipOrder_end_to_end OrderFixtures.le_zero OrderFixtures.fmt_f
              ("todo" : OrderFixtures.Ctx) OrderFixtures.rt OrderFixtures.quiet
              "ctx" OrderFixtures.shipment OrderFixtures.w0 eq_refl)
    as (base & e' & result & _ & _ & _ & _ & _ & _ & Hrun).
  split.
  - exact (f_equal (λ x, x.1.2) Hrun).
  - exact (f_equal (λ x, OrderExample.stdout x.2) Hrun).
Defined.

Lemma NewOrderModule_requires_an_emitter_witness :
  OrderExample.panicking OrderFixtures.w0 = None ∧
  OrderExample.panicking
    (OrderExample.NewOrderModule (float64:=OrderFixtures.float64) (time_Time:=Z)
       (Ctx:=OrderFixtures.Ctx) None OrderFixtures.w0).2 =
    Some (OrderExample.PanicString "eventEmitter cannot be nil").
Proof.
  split; [reflexivity|].
  destruct (NewOrderModule_requires_an_emitter ("todo" : OrderFixtures.Ctx)
              OrderFixtures.rt None OrderFixtures.w0 "ctx" OrderFixtures.order
              OrderFixtures.fmt_v_runtime_error tt eq_refl)
    as (_ & Hnil & _).
  exact (f_equal OrderExample.panicking (Hnil eq_refl)).
Defined.

Lemma Example_prints_its_output_witness :
  OrderFixtures.le_zero 9999%Z = false ∧
  OrderExample.stdout
    (exec (OrderExample.Example OrderFixtures.le_zero OrderFixtures.fmt_f
             ("background" : OrderFixtures.Ctx) "todo" OrderFixtures.rt
             OrderFixtures.fmt_s_other 9999%Z)
          (OrderExample.start tt)) = OrderExample.Example_Output.
Proof.
  split; [reflexivity|].
  exact (proj1 (Example_prints_its_output OrderFixtures.le_zero OrderFixtures.fmt_f
                  ("background" : OrderFixtures.Ctx) "todo" OrderFixtures.rt
                  OrderFixtures.fmt_s_other 9999%Z tt eq_refl)).
Defined.

Lemma ExampleEvent_metadata_prints_its_output_witness :
  (∀ e, OrderFixtures.IsZero
          (Time_UTC OrderFixtures.rt (time_Now OrderFixtures.rt e).1) = false) ∧
  OrderExample.stdout
    (exec (OrderExample.ExampleEvent_metadata (float64:=OrderFixtures.float64)
             OrderFixtures.rt OrderFixtures.IsZero 9999%Z)
          (OrderExample.start tt)) = OrderExample.ExampleEvent_metadata_Output.
Proof.
  assert (H : ∀ e, OrderFixtures.IsZero
                     (Time_UTC OrderFixtures.rt (time_Now OrderFixtures.rt e).1) = false)
    by (intros e; reflexivity).
  split; [exact H|].
  exact (proj1 (ExampleEvent_metadata_prints_its_output OrderFixtures.rt
                  OrderFixtures.IsZero 9999%Z tt H)).
Defined.

(** ** The student module *)

Lemma Emit_unfold {Data Ctx World} (log_Printf : string → M World unit)
    (e : EventEmitter Data Ctx World) (ctx : Ctx) (event : iface Data) (w : World) :
  Emit log_Printf e ctx event w =
    Dispatch (Dispatcher' e) ctx event
      match (Write (LogWriter e) event w).1 with
      | Some err =>
          exec (log_Printf ("audit log failed: " +:+ Error err))
            (Write (LogWriter e) event w).2
      | None => (Write (LogWriter e) event w).2
      end.
Proof.
  unfold Emit, mbind, M_bind, exec.
  destruct (Write (LogWriter e) event w) as [[err|] w1]; cbn [fst snd]; [|done].
  by destruct (log_Printf _ w1).
Qed.

Section StudentExampleProperties.
Context {time_Time Ctx Env : Type}.
Context (rt : Runtime Env time_Time).
Context (fmt_time : time_Time → string).

#[local] Abbreviation sworld := (@OrderExample.world Env).
#[local] Abbreviation sval := (@StudentExample.sval time_Time).

Lemma Handle_createStudent (m : @StudentExample.StudentModule time_Time Ctx Env)
    ctx p :
  Handle (NewApp [StudentExample.as_Module rt m]) ctx
    (StudentExample.box (StudentExample.VCreateStudentCommand p)) =
    StudentExample.createStudent rt m ctx
      (StudentExample.box (StudentExample.VCreateStudentCommand p)).
Proof.
  apply Handle_Some.
  change [StudentExample.as_Module rt m] with ([] ++ [StudentExample.as_Module rt m]).
  rewrite NewApp_lookup_snoc. simpl.
  unfold StudentExample.StudentModule_Handlers. by rewrite lookup_singleton_eq.
Qed.

Lemma createStudent_run (c : StudentExample.CreateStudentCommand) (w : sworld) :
  OrderExample.panicking w = None →
  ∃ base e',
    EventType base = "student_created" ∧
    AggregateID base = StudentExample.CreateStudentCommand_ID c ∧
    EventVersion base = 1%Z ∧ EventID base ≠ "" ∧
    ∀ (e : EventEmitter sval Ctx sworld) ctx,
      StudentExample.createStudent rt {| StudentExample.eventEmitter := Some e |} ctx
        (StudentExample.box (StudentExample.VCreateStudentCommand (Some c))) w =
        ((None, None),
         exec (Emit OrderExample.log_Printf e ctx
                 (StudentExample.box (StudentExample.VBaseEvent base)))
              (OrderExample.with_env e' w)).
Proof.
  intros Hw.
  destruct (NewBaseEvent_running rt "student_created"
              (StudentExample.CreateStudentCommand_ID c) 1 w Hw)
    as (base & _ & e' & Hnew & Hty & Hag & Hv & Hid & _).
  exists base, e'. split_and!; [done..|]. intros e ctx.
  unfold StudentExample.createStudent.
  assert (StudentExample.assert_CreateStudentCommand
            (StudentExample.box (StudentExample.VCreateStudentCommand (Some c)))
          = Some (Some c)) as -> by reflexivity.
  cbn [OrderExample.with_pointee]. unfold mbind, M_bind. rewrite Hnew.
  cbn [StudentExample.Emit_through StudentExample.eventEmitter mret M_ret].
  unfold exec.
  by destruct (Emit OrderExample.log_Printf e ctx
                 (StudentExample.box (StudentExample.VBaseEvent base))
                 (OrderExample.with_env e' w)) as [[] w'].
Qed.

(** X20. Creating a student through the router, for every emitter behind
    the module, every command and every world without a pending panic: the
    runtime is consulted for one event, and the emitter is called with the
    context that was given to [Handle] and a [BaseEvent] of type
    "student_created", version 1, with a non-empty id, whose aggregate id is
    the command's ID; the handler returns a nil result and a nil error.  With
    the console logger of the file in the emitter, the line "Event logged:
    student_created at <time>. ID: <id>" goes to the log and the dispatcher
    is called after it. *)
Theorem Handle_createStudent_end_to_end (e : EventEmitter sval Ctx sworld)
    (dispatcher : Dispatcher sval Ctx sworld) ctx
    (c : StudentExample.CreateStudentCommand) (w : sworld) :
  OrderExample.panicking w = None →
  ∃ base e',
    EventType base = "student_created" ∧
    AggregateID base = StudentExample.CreateStudentCommand_ID c ∧
    EventVersion base = 1%Z ∧ EventID base ≠ "" ∧
    Handle (NewApp [StudentExample.as_Module rt
                      {| StudentExample.eventEmitter := Some e |}]) ctx
      (StudentExample.box (StudentExample.VCreateStudentCommand (Some c))) w =
      ((None, None),
       exec (Emit OrderExample.log_Printf e ctx
               (StudentExample.box (StudentExample.VBaseEvent base)))
            (OrderExample.with_env e' w)) ∧
    Handle (NewApp [StudentExample.as_Module rt
                      {| StudentExample.eventEmitter :=
                           Some (NewEventEmitter
                                   (StudentExample.ConsoleEventLogger fmt_time)
                                   dispatcher) |}]) ctx
      (StudentExample.box (StudentExample.VCreateStudentCommand (Some c))) w =
      ((None, None),
       exec (Dispatch dispatcher ctx
               (StudentExample.box (StudentExample.VBaseEvent base)))
            (StudentExample.logged
               ("Event logged: student_created at " +:+ fmt_time (EventTime base)
                +:+ ". ID: " +:+ EventID base)
               (OrderExample.with_env e' w))).
Proof.
  intros Hw.
  destruct (createStudent_run c w Hw) as (base & e' & Hty & Hag & Hv & Hid & Hrun).
  exists base, e'. split_and!; [done..| |].
  - by rewrite Handle_createStudent, Hrun.
  - rewrite Handle_createStudent, Hrun. unfold exec. rewrite Emit_unfold.
    cbn [LogWriter Dispatcher' NewEventEmitter Write StudentExample.ConsoleEventLogger].
    unfold StudentExample.ConsoleEventLogger_Write.
    cbn [StudentExample.base_of StudentExample.box data OrderExample.with_pointee].
    unfold mbind, M_bind, OrderExample.log_Printf.
    rewrite unless_panicking_running by done. cbn [fst snd mret M_ret].
    rewrite Hty. reflexivity.
Qed.
End StudentExampleProperties.

Lemma Handle_createStudent_end_to_end_witness :
  let r := Handle (NewApp [StudentExample.as_Module OrderFixtures.rt
                             {| StudentExample.eventEmitter :=
                                  Some StudentFixtures.emitter |}]) "ctx"
             (StudentExample.box
                (StudentExample.VCreateStudentCommand (Some StudentFixtures.student)))
             OrderFixtures.w0 in
  OrderExample.panicking OrderFixtures.w0 = None ∧
  r.1 = (None, None) ∧
  OrderExample.errlog r.2 =
    ["Event logged: student_created at 1700000000. ID: 00000000000000000000000000000000"].
Proof.
  intros r. split; [reflexivity|].
  destruct (Handle_createStudent_end_to_end OrderFixtures.rt StudentFixtures.fmt_time
              StudentFixtures.emitter StudentFixtures.silent
              ("ctx" : OrderFixtures.Ctx) StudentFixtures.student OrderFixtures.w0
              eq_refl)
    as (base & e' & _ & _ & _ & _ & Hrun & _).
  split.
  - exact (f_equal fst Hrun).
  - reflexivity.
Defined.
